(** * Figure classifiers of pdf-image-classifier: a shallow embedding

    The development follows the two classifier classes of the repository,
    [FigureClassifier] (figure_classifier.py, the rule-based policy over a
    visual feature vector) and [FreeFigureClassifier] (free_classifier.py,
    the caption-keyword scorer with its visual fallbacks).

    Python floats are IEEE binary64 values: they are modelled by Rocq's
    primitive floats, so that every threshold comparison and every
    confidence is the value the interpreter computes.  Python strings are
    modelled as byte strings (UTF-8), dictionaries as association lists in
    insertion order, exceptions by a sum type carrying the text of the
    exception.  OpenCV, NumPy reductions, scikit-learn and the HTTP client
    are third-party code: their calls are fields of the record [Extern],
    over which every statement is quantified. *)

From Stdlib Require Import ZArith List String Ascii Bool Lia Floats DecimalString.
From Stdlib Require Uint63.
Import ListNotations.

Set Warnings "-inexact-float,-register-all".

Local Open Scope string_scope.

(** ** Fragments of the Python runtime used by the two classes *)

Module Py.

(** *** Exceptions: [inl] carries [str(e)], [inr] the value returned. *)

Definition exn := string.
Definition res (A : Type) : Type := (exn + A)%type.

Definition ret {A} (a : A) : res A := inr a.
Definition raise {A} (e : exn) : res A := inl e.
Definition bind {A B} (c : res A) (k : A -> res B) : res B :=
  match c with
  | inl e => inl e
  | inr a => k a
  end.

(** [try: c  except: h] *)
Definition try_except {A} (c : res A) (h : exn -> A) : A :=
  match c with
  | inl e => h e
  | inr a => a
  end.

Declare Scope py_scope.
Delimit Scope py_scope with py.
Notation "x <- c ;; k" := (bind c (fun x => k))
  (at level 61, c at next level, right associativity) : py_scope.
Notation "' p <- c ;; k" := (bind c (fun x => match x with p => k end))
  (at level 61, p pattern, c at next level, right associativity) : py_scope.

(** *** Floats *)

(** The float nearest to an integer, as [float(n)] gives it. *)
Definition Z2F (z : Z) : float :=
  SF2Prim (binary_normalize prec emax z 0 false).

(** Comparisons of floats; every one is false on a NaN operand. *)
Definition gt (x y : float) : bool := PrimFloat.ltb y x.
Definition lt (x y : float) : bool := PrimFloat.ltb x y.
Definition le (x y : float) : bool := PrimFloat.leb x y.

(** [min(a, b)] and [max(a, b)] of the builtins: the first argument is kept
    unless the second one is strictly smaller (resp. larger). *)
Definition py_min (a b : float) : float := if lt b a then b else a.
Definition py_max (a b : float) : float := if gt b a then b else a.

(** A Python number: an [int] or a [float]. *)
Inductive num : Type :=
| PyInt (n : Z)
| PyFloat (x : float).

Definition to_float (a : num) : float :=
  match a with
  | PyInt n => Z2F n
  | PyFloat x => x
  end.

(** [a += x] with a float [x]: the sum is a float whatever [a] was. *)
Definition num_add_float (a : num) (x : float) : num :=
  PyFloat (to_float a + x)%float.

(** [a / b] on two Python ints: ZeroDivisionError on a zero divisor, else
    the quotient as a float (the operands of this program are pixel and
    character counts, far below 2^53, where the quotient of the two
    conversions is the correctly rounded quotient). *)
Definition int_truediv (a b : Z) : res float :=
  if (b =? 0)%Z then raise "division by zero"
  else ret (Z2F a / Z2F b)%float.

(** [a / b] on Python numbers: the int case above, and float division, which
    raises ZeroDivisionError on a zero divisor as well. *)
Definition truediv (a b : num) : res float :=
  match a, b with
  | PyInt x, PyInt y => int_truediv x y
  | _, _ =>
      if PrimFloat.eqb (to_float b) 0 then raise "float division by zero"
      else ret (to_float a / to_float b)%float
  end.

(** The integer nearest to [n / d] for [0 < d], ties to the even one. *)
Definition rne_div (n d : Z) : Z :=
  let q := (n / d)%Z in
  let r := (n mod d)%Z in
  if (2 * r <? d)%Z then q
  else if (d <? 2 * r)%Z then (q + 1)%Z
  else if Z.even q then q else (q + 1)%Z.

(** [round(x, 1)]: the decimal with one fractional digit nearest to the
    exact value of [x] (ties to the even digit), converted back to the
    nearest float.  NaN, infinities, zeros and integral values are
    returned unchanged. *)
Definition py_round1 (x : float) : float :=
  match Prim2SF x with
  | S754_finite s m e =>
      if (0 <=? e)%Z then x
      else
        let y := (Z2F (rne_div (10 * Z.pos m) (2 ^ (- e))) / 10)%float in
        if s then (- y)%float else y
  | _ => x
  end.

(** [int(np.round(x))] on a finite float: the nearest integer, ties to the
    even one (0 stands for the values NumPy cannot convert). *)
Definition np_round_int (x : float) : Z :=
  match Prim2SF x with
  | S754_finite s m e =>
      let k := if (0 <=? e)%Z then (Z.pos m * 2 ^ e)%Z
               else rne_div (Z.pos m) (2 ^ (- e)) in
      if s then (- k)%Z else k
  | _ => 0%Z
  end.

(** *** Strings *)

Definition is_upper (c : ascii) : bool :=
  let n := nat_of_ascii c in (65 <=? n)%nat && (n <=? 90)%nat.
Definition is_lower (c : ascii) : bool :=
  let n := nat_of_ascii c in (97 <=? n)%nat && (n <=? 122)%nat.
Definition is_cased (c : ascii) : bool := is_upper c || is_lower c.

Definition lower_ascii (c : ascii) : ascii :=
  if is_upper c then ascii_of_nat (nat_of_ascii c + 32) else c.
Definition upper_ascii (c : ascii) : ascii :=
  if is_lower c then ascii_of_nat (nat_of_ascii c - 32) else c.

(** [s.isascii()]: every character is below 128. *)
Fixpoint isascii (s : string) : bool :=
  match s with
  | EmptyString => true
  | String c r => (nat_of_ascii c <? 128)%nat && isascii r
  end.

(** [s.lower()] of an ASCII string.  On other text the ASCII letters are
    mapped and every other byte is kept, where [str.lower] also maps the
    letters outside ASCII (U+212A to [k], for one): a statement that
    depends on the lower-cased text of an arbitrary caption takes
    [isascii] as a hypothesis. *)
Fixpoint lower (s : string) : string :=
  match s with
  | EmptyString => EmptyString
  | String c r => String (lower_ascii c) (lower r)
  end.

(** [w in s] on two strings: [w] occurs in [s] as a substring. *)
Fixpoint str_in (w s : string) : bool :=
  if String.prefix w s then true
  else match s with
       | EmptyString => false
       | String _ r => str_in w r
       end.

(** [s.replace(a, b)] for two one-character strings. *)
Fixpoint replace_char (a b : ascii) (s : string) : string :=
  match s with
  | EmptyString => EmptyString
  | String c r =>
      String (if Ascii.eqb c a then b else c) (replace_char a b r)
  end.

(** [s.title()]: a cased character is upper-cased when the character before
    it is not cased, and lower-cased otherwise. *)
Fixpoint title_from (prev_cased : bool) (s : string) : string :=
  match s with
  | EmptyString => EmptyString
  | String c r =>
      String (if prev_cased then lower_ascii c else upper_ascii c)
             (title_from (is_cased c) r)
  end.
Definition title (s : string) : string := title_from false s.

(** [sep.join(l)] *)
Fixpoint join (sep : string) (l : list string) : string :=
  match l with
  | [] => ""
  | [x] => x
  | x :: r => x ++ sep ++ join sep r
  end.

(** [s in l] for a list of strings. *)
Definition str_mem (s : string) (l : list string) : bool :=
  existsb (String.eqb s) l.

(** [format(x, '.2f')], the conversion of the f-strings: the decimal with
    two fractional digits nearest to the exact value of [x], ties to the
    even digit. *)
Definition two_digits (n : Z) : string :=
  (if (n <? 10)%Z then "0" else "")
  ++ NilZero.string_of_uint (N.to_uint (Z.to_N n)).
Definition format_2f (x : float) : string :=
  match Prim2SF x with
  | S754_nan => "nan"
  | S754_infinity s => if s then "-inf" else "inf"
  | S754_zero s => if s then "-0.00" else "0.00"
  | S754_finite s m e =>
      let k := if (0 <=? e)%Z then (100 * Z.pos m * 2 ^ e)%Z
               else rne_div (100 * Z.pos m) (2 ^ (- e)) in
      (if s then "-" else "")
      ++ NilZero.string_of_uint (N.to_uint (Z.to_N (k / 100))) ++ "."
      ++ two_digits (k mod 100)
  end.

(** *** Dictionaries with string keys, in insertion order *)

Definition dict (V : Type) : Type := list (string * V).

Fixpoint dict_get {V} (d : dict V) (k : string) : option V :=
  match d with
  | [] => None
  | (k', v) :: r => if String.eqb k k' then Some v else dict_get r k
  end.

(** [d.get(k, default)] *)
Definition dict_get_default {V} (d : dict V) (k : string) (default : V) : V :=
  match dict_get d k with
  | Some v => v
  | None => default
  end.

(** [k in d] *)
Definition dict_mem {V} (d : dict V) (k : string) : bool :=
  match dict_get d k with
  | Some _ => true
  | None => false
  end.

(** [d[k] = v]: the value of an existing key is replaced where it stands, a
    new key is appended. *)
Fixpoint dict_set {V} (d : dict V) (k : string) (v : V) : dict V :=
  match d with
  | [] => [(k, v)]
  | (k', v') :: r =>
      if String.eqb k k' then (k', v) :: r else (k', v') :: dict_set r k v
  end.

Definition dict_keys {V} (d : dict V) : list string := map fst d.

(** *** The values stored in a result dictionary *)

Inductive pyval : Type :=
| VStr (s : string)
| VFloat (x : float)
| VStrList (l : list string)
| VDict (d : list (string * pyval)).

End Py.

(** ** NumPy arrays and PIL images *)

Module Np.
Import Py.

(** An image array of shape [(h, w)] ([nd_channels = None]) or [(h, w, c)]
    ([nd_channels = Some c]).  [nd_rows] lists the [h] rows, each row its
    pixels, each pixel its channel values (one value for a 2-D array).  The
    width is kept apart: an array with no row still has one. *)
Record ndarray : Type := {
  nd_width : nat;
  nd_channels : option nat;
  nd_rows : list (list (list Z))
}.

(** [a.shape[0]], [a.shape[1]], [len(a.shape) == 3] *)
Definition shape0 (a : ndarray) : Z := Z.of_nat (List.length (nd_rows a)).
Definition shape1 (a : ndarray) : Z := Z.of_nat (nd_width a).
Definition ndim3 (a : ndarray) : bool :=
  match nd_channels a with
  | Some _ => true
  | None => false
  end.

(** [h, w = a.shape]: a 3-D shape does not unpack into two names. *)
Definition unpack_shape2 (a : ndarray) : res (Z * Z) :=
  if ndim3 a then raise "too many values to unpack (expected 2)"
  else ret (shape0 a, shape1 a).

(** [a.reshape(-1, a.shape[-1])] of a 3-D array: the list of pixels. *)
Definition pixel_rows (a : ndarray) : list (list Z) := List.concat (nd_rows a).

(** [a.flatten()] *)
Definition flatten (a : ndarray) : list Z := List.concat (pixel_rows a).

(** [len(np.unique(rows, axis=0))]: the number of distinct rows. *)
Definition unique_count (rows : list (list Z)) : Z :=
  Z.of_nat (List.length (nodup (list_eq_dec Z.eq_dec) rows)).

(** [np.sum(a > 0)] *)
Definition count_positive (a : ndarray) : Z :=
  Z.of_nat (List.length (filter (Z.ltb 0) (flatten a))).

(** [np.zeros_like(a)] *)
Definition zeros_like (a : ndarray) : ndarray :=
  {| nd_width := nd_width a;
     nd_channels := nd_channels a;
     nd_rows := map (map (map (fun _ => 0%Z))) (nd_rows a) |}.

(** [a.reshape(-1, 3)]: the elements in groups of three; ValueError when
    their number is not a multiple of three. *)
Fixpoint chunk3 (l : list Z) : list (list Z) :=
  match l with
  | a :: b :: c :: r => [a; b; c] :: chunk3 r
  | _ => []
  end.
Definition reshape3 (a : ndarray) : res (list (list Z)) :=
  let l := flatten a in
  if (Nat.modulo (List.length l) 3 =? 0)%nat then ret (chunk3 l)
  else raise ("cannot reshape array of size "
              ++ NilZero.string_of_uint (Nat.to_uint (List.length l))
              ++ " into shape (3)").

(** Slices of a 2-D array, as lists of rows of values. *)
Definition rows2 (a : ndarray) : list (list Z) := map (@List.concat Z) (nd_rows a).

(** A PIL image; [np.array(image)] is its pixel array. *)
Record Image : Type := { np_array : ndarray }.

End Np.

(** ** Third-party calls

    The calls into OpenCV, NumPy's floating-point reductions, scikit-learn,
    PIL and [requests].  A call that can raise returns a [res]. *)

Module Ext.
Import Py Np.

Inductive ColorCode : Type := COLOR_RGB2GRAY | COLOR_RGB2HSV.

(** A contour is the array of its points. *)
Definition contour : Type := list (Z * Z).

(** A decoded JSON document, [response.json()]. *)
Inductive json : Type :=
| JNull
| JBool (b : bool)
| JNum (n : Z)
| JStr (s : string)
| JList (l : list json)
| JDict (d : list (string * json)).

(** What [requests.post(url, files=..., timeout=10)] does: it raises (a
    timeout, a connection error), or returns a response with a status code
    and a body, whose [.json()] raises on a body that is not JSON. *)
Inductive http_outcome : Type :=
| HttpRaises (e : exn)
| HttpResponse (status_code : Z) (body : res json).

Record Extern : Type := {
  (* cv2 *)
  cvtColor : ndarray -> ColorCode -> res ndarray;
  Canny : ndarray -> Z -> Z -> res ndarray;
  (* morphologyEx(gray, MORPH_CLOSE, getStructuringElement(MORPH_RECT, (3, 3))) *)
  morphologyEx_close3 : ndarray -> res ndarray;
  (* findContours(a, RETR_EXTERNAL, CHAIN_APPROX_SIMPLE)[0] *)
  findContours : ndarray -> res (list contour);
  contourArea : contour -> float;
  boundingRect : contour -> Z * Z * Z * Z;
  (* arcLength(c, True), approxPolyDP(c, epsilon, True) *)
  arcLength : contour -> float;
  approxPolyDP : contour -> float -> contour;
  (* HoughLinesP(edges, 1, np.pi/180, 50, minLineLength=30, maxLineGap=10) *)
  HoughLinesP : ndarray -> res (option (list (Z * Z * Z * Z)));
  (* HoughCircles(gray, HOUGH_GRADIENT, 1, minDist, param1=50, param2,
     minRadius, maxRadius)[0] *)
  HoughCircles :
    ndarray -> Z -> Z -> Z -> Z -> res (option (list (float * float * float)));
  (* numpy reductions in floating point *)
  np_mean : ndarray -> float;
  np_std : ndarray -> float;
  (* np.mean(a[:, :, k]), np.var(a[:, :, k]) *)
  np_mean_channel : ndarray -> nat -> float;
  np_var_channel : ndarray -> nat -> float;
  (* np.corrcoef(x, y)[0, 1] *)
  np_corrcoef : list Z -> list Z -> float;
  (* np.mean(a, axis=2): a 2-D array of floats, of which the program uses
     the shape and the values of .astype(np.uint8); it is given by those *)
  np_mean_axis2 : ndarray -> res ndarray;
  (* len(KMeans(n_clusters, random_state=42).fit(pixels).cluster_centers_) *)
  KMeans_fit : Z -> list (list Z) -> res Z;
  (* PIL *)
  convert_L : Image -> res Image;
  save_png : Image -> res (list Z);
  (* requests.post(hf_api_url, files={inputs: png}, timeout=10) *)
  requests_post : list Z -> http_outcome
}.

End Ext.

(** ** figure_classifier.py: class FigureClassifier *)

Module FigureClassifier.
Import Py Np Ext.
Local Open Scope py_scope.

(** The dictionary built by [_extract_features].  A feature that the source
    sets to the int [0] or [1] on some branch is stored as the float of the
    same value, which compares alike. *)
Record FeatureVector : Type := {
  aspect_ratio : float;
  brightness : float;
  contrast : float;
  edge_density : float;
  color_diversity : float;
  text_ratio : float;
  line_density : float;
  circle_ratio : float;
  rectangle_ratio : float;
  symmetry_horizontal : float;
  symmetry_vertical : float;
  dominant_color_count : Z;
  saturation_mean : float;
  hue_variance : float
}.

(** The mutable attribute of the instance. *)
Record self : Type := { confidence_score : float }.

Definition _map_to_label (category : string) : string :=
  let mapping : dict string :=
    [ ("bar_chart", "📊 Bar Chart");
      ("line_graph", "📈 Line Graph");
      ("pie_chart", "🟢 Pie Chart");
      ("timeline", "⏰ Timeline");
      ("photograph", "📷 Photograph");
      ("table", "📋 Table");
      ("scatter_plot", "🔵 Scatter Plot");
      ("flowchart", "📐 Flowchart");
      ("scientific_diagram", "📐 Scientific Diagram");
      ("map", "🗺️ Map");
      ("diagram", "📐 Other Diagram") ] in
  dict_get_default mapping category "📐 Other Diagram".

Definition _get_brief_description (category : string) : string :=
  let descs : dict string :=
    [ ("bar_chart", "Vertical or horizontal bars used to compare values.");
      ("line_graph", "Continuous line to show trends over time or data.");
      ("pie_chart", "Circular chart divided into slices.");
      ("timeline", "Horizontal layout showing chronological events.");
      ("photograph", "High color and texture variation, likely image capture.");
      ("table", "Grid of cells with rows and columns of text.");
      ("scatter_plot", "Many small dots or shapes scattered across axes.");
      ("flowchart", "Connected shapes representing steps or decisions.");
      ("scientific_diagram", "Symmetric, structured layout with labeled parts.");
      ("map", "Irregular shapes and colors suggest geographic layout.");
      ("diagram", "Generic illustration, often grayscale or text-heavy.") ] in
  dict_get_default descs category "Grayscale content, likely diagram or text".

Section WithExtern.
Variable ext : Extern.

Definition _estimate_text_ratio (gray : ndarray) : res float :=
  processed <- morphologyEx_close3 ext gray ;;
  contours <- findContours ext processed ;;
  let total_area := (shape0 gray * shape1 gray)%Z in
  let text_area :=
    fold_left
      (fun text_area contour =>
         let area := contourArea ext contour in
         let '(x, y, w, h) := boundingRect ext contour in
         if (h <? 50)%Z && (20 <? w)%Z && gt area 100
         then num_add_float text_area area
         else text_area)
      contours (PyInt 0) in
  truediv text_area (PyInt total_area).

Definition _detect_lines (gray : ndarray) : res float :=
  edges <- Canny ext gray 50 150 ;;
  lines <- HoughLinesP ext edges ;;
  match lines with
  | Some lines =>
      area <- int_truediv (shape0 gray * shape1 gray) 10000 ;;
      truediv (PyInt (Z.of_nat (List.length lines))) (PyFloat area)
  | None => ret 0%float
  end.

Definition _detect_circles (gray : ndarray) : res float :=
  circles <- HoughCircles ext gray 20 30 10 100 ;;
  match circles with
  | Some circles =>
      let circles :=
        map (fun '(x, y, r) => (np_round_int x, np_round_int y, np_round_int r))
            circles in
      let total_circle_area :=
        fold_left
          (fun acc '(x, y, r) =>
             num_add_float acc (3.141592653589793 * Z2F r * Z2F r)%float)
          circles (PyInt 0) in
      let total_area := (shape0 gray * shape1 gray)%Z in
      match total_circle_area with
      | PyInt _ => truediv total_circle_area (PyInt total_area)
      | PyFloat a => ret (a / Z2F total_area)%float
      end
  | None => ret 0%float
  end.

Definition _detect_rectangles (gray : ndarray) : res float :=
  contours <- findContours ext gray ;;
  let total_area := (shape0 gray * shape1 gray)%Z in
  let rectangle_area :=
    fold_left
      (fun rectangle_area contour =>
         let epsilon := (0.02 * arcLength ext contour)%float in
         let approx := approxPolyDP ext contour epsilon in
         if (List.length approx =? 4)%nat
         then num_add_float rectangle_area (contourArea ext contour)
         else rectangle_area)
      contours (PyInt 0) in
  truediv rectangle_area (PyInt total_area).

Definition _calculate_symmetry (gray : ndarray) (axis : Z) : float :=
  let corr :=
    if (axis =? 0)%Z then
      let mid := Nat.div (List.length (rows2 gray)) 2 in
      let top := firstn mid (rows2 gray) in
      let bottom := rev (skipn mid (rows2 gray)) in
      let min_rows := Nat.min (List.length top) (List.length bottom) in
      let top := firstn min_rows top in
      let bottom := firstn min_rows bottom in
      np_corrcoef ext (List.concat top) (List.concat bottom)
    else
      let mid := Nat.div (nd_width gray) 2 in
      let left := map (firstn mid) (rows2 gray) in
      let right := map (fun row => rev (skipn mid row)) (rows2 gray) in
      let min_cols := Nat.min (Nat.min mid (nd_width gray)) (nd_width gray - mid) in
      let left := map (firstn min_cols) left in
      let right := map (firstn min_cols) right in
      np_corrcoef ext (List.concat left) (List.concat right) in
  if PrimFloat.is_nan corr then 0%float
  else if gt corr 0 then corr else 0%float.

Definition _count_dominant_colors (img_array : ndarray) : res Z :=
  pixels <- reshape3 img_array ;;
  ret (try_except
         (KMeans_fit ext (Z.min 8 (unique_count pixels)) pixels)
         (fun _ => 1%Z)).

Definition _extract_features (image : Image) : res FeatureVector :=
  let img_array := np_array image in
  gray <- (if ndim3 img_array then cvtColor ext img_array COLOR_RGB2GRAY
           else ret img_array) ;;
  ' (height, width) <- unpack_shape2 gray ;;
  aspect_ratio <- int_truediv width height ;;
  let brightness := np_mean ext gray in
  let contrast := np_std ext gray in
  edges <- Canny ext gray 50 150 ;;
  let edge_density := (Z2F (count_positive edges) / Z2F (height * width))%float in
  ' (color_diversity, saturation_mean, hue_variance, dominant_color_count) <-
    (if ndim3 img_array then
       let unique_colors := unique_count (pixel_rows img_array) in
       color_diversity <- int_truediv unique_colors (height * width) ;;
       hsv <- cvtColor ext img_array COLOR_RGB2HSV ;;
       let saturation_mean := np_mean_channel ext hsv 1 in
       let hue_variance := np_var_channel ext hsv 0 in
       dominant_color_count <- _count_dominant_colors img_array ;;
       ret (color_diversity, saturation_mean, hue_variance, dominant_color_count)
     else ret (0%float, 0%float, 0%float, 1%Z)) ;;
  text_ratio <- _estimate_text_ratio gray ;;
  line_density <- _detect_lines gray ;;
  circle_ratio <- _detect_circles gray ;;
  rectangle_ratio <- _detect_rectangles gray ;;
  let symmetry_horizontal := _calculate_symmetry gray 0 in
  let symmetry_vertical := _calculate_symmetry gray 1 in
  ret {| aspect_ratio := aspect_ratio;
         brightness := brightness;
         contrast := contrast;
         edge_density := edge_density;
         color_diversity := color_diversity;
         text_ratio := text_ratio;
         line_density := line_density;
         circle_ratio := circle_ratio;
         rectangle_ratio := rectangle_ratio;
         symmetry_horizontal := symmetry_horizontal;
         symmetry_vertical := symmetry_vertical;
         dominant_color_count := dominant_color_count;
         saturation_mean := saturation_mean;
         hue_variance := hue_variance |}.

Definition _is_scatter_plot (features : FeatureVector) (image : Image) : res bool :=
  gray_image <- convert_L ext image ;;
  let gray := np_array gray_image in
  circles <- HoughCircles ext gray 10 15 1 10 ;;
  ret (match circles with
       | Some circles => (20 <? List.length circles)%nat
       | None => false
       end).

Definition _is_map_like (features : FeatureVector) (image : Image) : bool :=
  gt (color_diversity features) 0.05
  && (lt 0.1 (edge_density features) && lt (edge_density features) 0.3)
  && lt (symmetry_horizontal features) 0.3
  && lt (symmetry_vertical features) 0.3.

(** The method returns the category and leaves the confidence in
    [self.confidence_score]; an exception of the scatter-plot probe leaves
    the attribute at the value set on entry. *)
Definition _rule_based_classification
    (features : FeatureVector) (image : Image) (s : self) : res string * self :=
  let s := {| confidence_score := 0.5 |} in
  if gt (circle_ratio features) 0.3 then
    (ret "pie_chart", {| confidence_score := 0.8 |})
  else if gt (rectangle_ratio features) 0.4 && lt (text_ratio features) 0.3 then
    (ret "bar_chart", {| confidence_score := 0.7 |})
  else if gt (line_density features) 0.3 && lt (rectangle_ratio features) 0.2 then
    (ret "line_graph", {| confidence_score := 0.7 |})
  else if gt (text_ratio features) 0.4 then
    (ret "table", {| confidence_score := 0.6 |})
  else if gt (edge_density features) 0.2 && gt (rectangle_ratio features) 0.2 then
    (ret "flowchart", {| confidence_score := 0.6 |})
  else if lt (edge_density features) 0.1 && gt (color_diversity features) 0.1 then
    (ret "photograph", {| confidence_score := 0.6 |})
  else if gt (symmetry_horizontal features) 0.7
          || gt (symmetry_vertical features) 0.7 then
    (ret "scientific_diagram", {| confidence_score := 0.6 |})
  else
    match _is_scatter_plot features image with
    | inl e => (raise e, s)
    | inr true => (ret "scatter_plot", {| confidence_score := 0.7 |})
    | inr false =>
        if _is_map_like features image then
          (ret "map", {| confidence_score := 0.6 |})
        else (ret "diagram", {| confidence_score := 0.4 |})
    end.

(** The dictionary returned on the [except Exception as e] path. *)
Definition error_result (e : exn) : dict pyval :=
  [ ("type", VStr "📐 Other Diagram");
    ("confidence", VFloat 30.0);
    ("description", VStr "Grayscale content, likely diagram or text");
    ("reasoning", VStr ("Error during classification: " ++ e)) ].

Definition classify_figure (image : Image) (s : self) : dict pyval * self :=
  match _extract_features image with
  | inl e => (error_result e, s)
  | inr features =>
      match _rule_based_classification features image s with
      | (inl e, s') => (error_result e, s')
      | (inr category, s') =>
          ([ ("type", VStr (_map_to_label category));
             ("confidence", VFloat (py_round1 (confidence_score s' * 100)));
             ("description", VStr (_get_brief_description category));
             ("reasoning",
              VStr ("Rule-based decision based on visual features: " ++ category)) ],
           s')
      end
  end.

End WithExtern.

End FigureClassifier.

(** ** free_classifier.py: class FreeFigureClassifier *)

Module FreeFigureClassifier.
Import Py Np Ext.
Local Open Scope py_scope.

(** The mutable attribute of the instance. *)
Record self : Type := { confidence_score : float }.

Definition figure_categories : dict (list string) :=
  [
    ("bar_chart", ["bar chart"; "bar graph"; "column chart"; "histogram"; "bars"]);
    ("pie_chart", ["pie chart"; "pie graph"; "circular chart"; "donut chart"]);
    ("line_graph", ["line chart"; "line graph"; "trend"; "curve"; "time series"]);
    ("scatter_plot", ["scatter plot"; "scatter chart"; "dots"; "points"; "correlation"]);
    ("histogram", ["histogram"; "distribution"; "frequency"; "bins"]);
    ("box_plot", ["box plot"; "boxplot"; "whisker"; "quartile"]);
    ("heatmap", ["heatmap"; "heat map"; "intensity"; "color map"; "gradient"]);
    ("flowchart", ["flowchart"; "flow chart"; "process"; "workflow"; "diagram"]);
    ("organizational_chart", ["organizational chart"; "org chart"; "hierarchy"; "structure"]);
    ("network_diagram", ["network"; "graph"; "nodes"; "connections"; "tree"]);
    ("scientific_diagram", ["molecule"; "chemical"; "formula"; "scientific"; "laboratory"]);
    ("medical_diagram", ["anatomy"; "medical"; "body"; "organ"; "health"]);
    ("engineering_diagram", ["circuit"; "schematic"; "technical"; "blueprint"; "engineering"]);
    ("map", ["map"; "geographic"; "location"; "street"; "geography"; "satellite"]);
    ("floor_plan", ["floor plan"; "blueprint"; "layout"; "room"; "building"]);
    ("timeline", ["timeline"; "chronology"; "sequence"; "history"; "events"]);
    ("table", ["table"; "grid"; "rows"; "columns"; "data"; "spreadsheet"]);
    ("infographic", ["infographic"; "information"; "visual"; "statistics"]);
    ("photograph", ["photo"; "picture"; "image"; "real"; "camera"; "scene"]);
    ("screenshot", ["screenshot"; "screen"; "interface"; "software"; "application"]);
    ("logo", ["logo"; "brand"; "symbol"; "emblem"; "company"]);
    ("chart_other", ["chart"; "graph"; "visualization"; "data"]);
    ("diagram_other", ["diagram"; "illustration"; "drawing"; "figure"]);
    ("unknown", ["unclear"; "unknown"; "indeterminate"]) ].

Definition figure_emojis : dict string :=
  [
    ("bar_chart", "📊");
    ("pie_chart", "🥧");
    ("line_graph", "📈");
    ("scatter_plot", "📉");
    ("histogram", "📊");
    ("box_plot", "📦");
    ("heatmap", "🌡️");
    ("flowchart", "🔁");
    ("organizational_chart", "🗂️");
    ("network_diagram", "🔗");
    ("scientific_diagram", "🧪");
    ("medical_diagram", "🫀");
    ("engineering_diagram", "📐");
    ("map", "🗺️");
    ("floor_plan", "🏠");
    ("timeline", "🕒");
    ("table", "📋");
    ("infographic", "📌");
    ("photograph", "📷");
    ("screenshot", "🖥️");
    ("logo", "🚩");
    ("chart_other", "🔢");
    ("diagram_other", "📝");
    ("unknown", "❓") ].

(** The f-string stored under ["type"] by [classify_figure]:
    [f"{figure_emojis.get(c, '❓')} {c.replace('_', ' ').title()}"]. *)
Definition type_of (classification : string) : string :=
  dict_get_default figure_emojis classification "❓"
  ++ " " ++ title (replace_char "_" " " classification).

Definition _fallback_classification (s : self) : dict pyval * self :=
  ([ ("classification", VStr "unknown");
     ("confidence", VFloat 0.3);
     ("description", VStr "Could not classify figure reliably");
     ("details",
      VDict [ ("visual_elements", VStrList ["visual content"]);
              ("analysis_method", VStr "Fallback classification") ]);
     ("reasoning", VStr "No meaningful description or features available") ],
   {| confidence_score := 0.3 |}).

Definition _generate_description
    (classification original_description : string) : string :=
  let readable := replace_char "_" " " classification in
  if negb (String.eqb original_description "")
     && negb (str_mem original_description
                ["visual content"; "image with visual elements"])
  then title readable ++ ". " ++ original_description
  else title readable.

Definition _extract_visual_elements
    (description classification : string) : list string :=
  let elements :=
    if str_in "chart" classification || str_in "graph" classification
    then ["data visualization"; "axes"; "labels"]
    else if str_in "diagram" classification then ["shapes"; "connectors"]
    else if String.eqb classification "photograph"
    then ["real objects"; "natural lighting"]
    else [] in
  let elements :=
    if negb (String.eqb description "") then
      let desc_lower := lower description in
      let elements :=
        if str_in "text" desc_lower then (elements ++ ["text content"])%list
        else elements in
      let elements :=
        if str_in "color" desc_lower then (elements ++ ["varied colors"])%list
        else elements in
      if str_in "line" desc_lower then (elements ++ ["linear elements"])%list
      else elements
    else elements in
  match elements with
  | [] => ["visual content"]
  | _ => firstn 5 elements
  end.

(** [for t in ts: if t in enhanced: enhanced[t] += n] *)
Definition add_bonus (ts : list string) (n : Z) (enhanced : dict Z) : dict Z :=
  fold_left
    (fun enhanced t =>
       match dict_get enhanced t with
       | Some v => dict_set enhanced t (v + n)%Z
       | None => enhanced
       end)
    ts enhanced.

(** [max(items, key=lambda x: x[1])] from a first item on: a later item
    replaces the best one only when its value is strictly larger. *)
Fixpoint max_item (best : string * Z) (items : list (string * Z)) : string * Z :=
  match items with
  | [] => best
  | x :: r => max_item (if (snd best <? snd x)%Z then x else best) r
  end.

(** [sum(len(w) for w in v if w in desc_lower)] *)
Definition keyword_score (v : list string) (desc_lower : string) : Z :=
  fold_left Z.add
    (map (fun w => Z.of_nat (String.length w))
         (filter (fun w => str_in w desc_lower) v))
    0%Z.

Section WithExtern.
Variable ext : Extern.

Definition _simple_edge_detection (gray_image : ndarray) : ndarray :=
  try_except (Canny ext gray_image 50 150) (fun _ => zeros_like gray_image).

Definition _analyze_image_locally (image : Image) : string :=
  try_except
    (let img_array := np_array image in
     let height := shape0 img_array in
     let width := shape1 img_array in
     aspect_ratio <- int_truediv width height ;;
     ' (color_diversity, brightness, edge_density) <-
       (if ndim3 img_array then
          let unique_colors := unique_count (pixel_rows img_array) in
          color_diversity <- int_truediv unique_colors (height * width) ;;
          let brightness := np_mean ext img_array in
          gray <- np_mean_axis2 ext img_array ;;
          let edges := _simple_edge_detection gray in
          let edge_density :=
            (Z2F (count_positive edges) / Z2F (height * width))%float in
          ret (color_diversity, brightness, edge_density)
        else ret (0%float, np_mean ext img_array, 0%float)) ;;
     let desc := [] in
     let desc := if gt aspect_ratio 1.5 then (desc ++ ["wide"])%list
                 else if lt aspect_ratio 0.7 then (desc ++ ["tall"])%list
                 else desc in
     let desc := if gt color_diversity 0.1 then (desc ++ ["colorful"])%list
                 else if lt color_diversity 0.01 then (desc ++ ["simple"])%list
                 else desc in
     let desc := if gt edge_density 0.2 then (desc ++ ["detailed diagram"])%list
                 else if gt edge_density 0.1 then (desc ++ ["chart"])%list
                 else (desc ++ ["image"])%list in
     let desc := if gt brightness 200 then (desc ++ ["bright"])%list
                 else if lt brightness 100 then (desc ++ ["dark"])%list
                 else desc in
     ret (match desc with
          | [] => "visual content"
          | _ => join " " desc
          end))
    (fun _ => "visual content").

(** The value returned is a Python object: the string synthesized locally,
    or whatever the service put under ['generated_text']. *)
Definition _get_image_description (image : Image) : json :=
  try_except
    (img_buffer <- save_png ext image ;;
     match requests_post ext img_buffer with
     | HttpRaises e => raise e
     | HttpResponse status_code body =>
         if (status_code =? 200)%Z then
           result <- body ;;
           match result with
           | JList (JDict first :: _) =>
               ret (dict_get_default first "generated_text" (JStr ""))
           | JList (_ :: _) => raise "object has no attribute 'get'"
           | _ => ret (JStr (_analyze_image_locally image))
           end
         else ret (JStr (_analyze_image_locally image))
     end)
    (fun _ => JStr (_analyze_image_locally image)).

Definition _enhance_classification_with_analysis
    (image : Image) (scores : dict Z) : dict Z :=
  try_except
    (let img_array := np_array image in
     let h := shape0 img_array in
     let w := shape1 img_array in
     ar <- int_truediv w h ;;
     let enhanced := scores in
     let enhanced :=
       if le 0.8 ar && le ar 1.5
       then add_bonus ["bar_chart"; "line_graph"; "scatter_plot"] 5 enhanced
       else enhanced in
     let enhanced :=
       if gt ar 2 then add_bonus ["timeline"; "flowchart"] 8 enhanced
       else enhanced in
     if ndim3 img_array then
       let uc := unique_count (pixel_rows img_array) in
       cd <- int_truediv uc (h * w) ;;
       if gt cd 0.1
       then ret (add_bonus ["photograph"; "infographic"; "map"] 6 enhanced)
       else if lt cd 0.01
       then ret (add_bonus ["bar_chart"; "line_graph"] 4 enhanced)
       else ret enhanced
     else ret enhanced)
    (fun _ => scores).

Definition _classify_by_visual_analysis
    (image : Image) (description : string) (s : self) : dict pyval * self :=
  let body : res (string * float * float) :=
    let img_array := np_array image in
    let h := shape0 img_array in
    let w := shape1 img_array in
    ar <- int_truediv w h ;;
    if ndim3 img_array then
      let uc := unique_count (pixel_rows img_array) in
      cd <- int_truediv uc (h * w) ;;
      if gt cd 0.1 then ret ("photograph", 0.6%float, ar)
      else if gt ar 2 then ret ("timeline", 0.5%float, ar)
      else if le 0.8 ar && le ar 1.2 then ret ("chart_other", 0.5%float, ar)
      else ret ("diagram_other", 0.4%float, ar)
    else ret ("diagram_other", 0.4%float, ar) in
  match body with
  | inr (classification, confidence, ar) =>
      ([ ("classification", VStr classification);
         ("confidence", VFloat confidence);
         ("description",
          VStr ("Visual analysis suggests a "
                ++ replace_char "_" " " classification));
         ("details",
          VDict [ ("visual_elements", VStrList ["visual content"]);
                  ("analysis_method", VStr "Fallback visual analysis") ]);
         ("reasoning",
          VStr ("No matching description, classified by aspect ratio "
                ++ format_2f ar)) ],
       {| confidence_score := confidence |})
  | inl _ => _fallback_classification s
  end.

(** [scores] after the two dictionary comprehensions: the categories in the
    order of [figure_categories], those of score 0 left out. *)
Definition keyword_scores (desc_lower : string) : dict Z :=
  filter (fun kv => (0 <? snd kv)%Z)
         (map (fun kv => (fst kv, keyword_score (snd kv) desc_lower))
              figure_categories).

Definition _classify_from_description
    (description : json) (image : Image) (s : self)
  : res (dict pyval) * self :=
  match description with
  | JStr description =>
      let desc_lower := lower description in
      let scores := keyword_scores desc_lower in
      let enhanced := _enhance_classification_with_analysis image scores in
      match enhanced with
      | first :: rest =>
          let best := max_item first rest in
          let classification := fst best in
          let confidence := py_min 0.95 (0.5 + Z2F (snd best) / 20)%float in
          (ret [ ("classification", VStr classification);
                 ("confidence", VFloat confidence);
                 ("description",
                  VStr (_generate_description classification description));
                 ("details",
                  VDict [ ("visual_elements",
                           VStrList (_extract_visual_elements
                                       description classification));
                          ("analysis_method",
                           VStr "Free local + HuggingFace analysis") ]);
                 ("reasoning",
                  VStr ("Classified as " ++ classification
                        ++ " using description '" ++ description ++ "'")) ],
           {| confidence_score := confidence |})
      | [] =>
          let '(result, s') := _classify_by_visual_analysis image description s in
          (ret result, s')
      end
  | _ => (raise "object has no attribute 'lower'", s)
  end.

Definition classify_figure (image : Image) (s : self) : dict pyval * self :=
  let description := _get_image_description image in
  match _classify_from_description description image s with
  | (inr result, s') =>
      match dict_get_default result "classification" (VStr "unknown") with
      | VStr classification =>
          let result := dict_set result "type" (VStr (type_of classification)) in
          let result := dict_set result "classification" (VStr classification) in
          (result, s')
      | _ => _fallback_classification s'
      end
  | (inl _, s') => _fallback_classification s'
  end.

Definition get_confidence (s : self) : float := confidence_score s.

End WithExtern.

End FreeFigureClassifier.

(** ** One-pixel images *)

Module OnePixel.
Import Py Np Ext.
Import FigureClassifier.

(** The 1×1 image arrays: three channels, or a single grey level. *)
Definition rgb (r g b : Z) : Image :=
  {| np_array := {| nd_width := 1; nd_channels := Some 3%nat;
                    nd_rows := [[[r; g; b]]] |} |}.
Definition grey (v : Z) : Image :=
  {| np_array := {| nd_width := 1; nd_channels := None;
                    nd_rows := [[[v]]] |} |}.



End OnePixel.

(** ** Concrete inputs

    Small uniform images, and the third-party calls as they answer on
    them, for the statements below that are evaluated on an input. *)

Module Inputs.
Import Py Np Ext.

(** The single-channel array of the same size, holding the first channel
    of every pixel (the grey level of a pixel whose channels are equal). *)
Definition first_channel (a : ndarray) : ndarray :=
  {| nd_width := nd_width a;
     nd_channels := None;
     nd_rows := map (map (fun px => [hd 0%Z px])) (nd_rows a) |}.

(** On a uniform image: grey conversion keeps the level, the edge map is
    empty, closing changes nothing, the only contour is the one-point
    contour of area 0, no line and no circle is found, the mean is the
    level and the deviation 0, the correlation of two constant samples is
    NaN, k-means finds the clusters asked for.  The captioning service
    answers [post]. *)
Definition uniform_extern (post : http_outcome) : Extern :=
  {| cvtColor := fun a code =>
       match code with
       | COLOR_RGB2GRAY => ret (first_channel a)
       | COLOR_RGB2HSV => ret (zeros_like a)
       end;
     Canny := fun a _ _ => ret (zeros_like a);
     morphologyEx_close3 := fun a => ret a;
     findContours := fun _ => ret [[(0%Z, 0%Z)]];
     contourArea := fun _ => 0%float;
     boundingRect := fun _ => (0%Z, 0%Z, 1%Z, 1%Z);
     arcLength := fun _ => 0%float;
     approxPolyDP := fun c _ => c;
     HoughLinesP := fun _ => ret None;
     HoughCircles := fun _ _ _ _ _ => ret None;
     np_mean := fun a => Z2F (hd 0%Z (flatten a));
     np_std := fun _ => 0%float;
     np_mean_channel := fun _ _ => 0%float;
     np_var_channel := fun _ _ => 0%float;
     np_corrcoef := fun _ _ => nan;
     np_mean_axis2 := fun a => ret (first_channel a);
     KMeans_fit := fun n _ => ret n;
     convert_L := fun image => ret {| np_array := first_channel (np_array image) |};
     save_png := fun _ => ret [];
     requests_post := fun _ => post |}.

(** A captioning service that is down, and one that answers a caption. *)
Definition service_down : http_outcome := HttpRaises "Read timed out.".
Definition service_says (caption : json) : http_outcome :=
  HttpResponse 200 (ret (JList [JDict [("generated_text", caption)]])).

(** One white pixel, as an RGB image and as a greyscale image. *)
Definition white_pixel_rgb : Image := OnePixel.rgb 255 255 255.
Definition white_pixel_grey : Image := OnePixel.grey 255.

(** A greyscale strip one pixel high and three pixels wide. *)
Definition grey_strip : Image :=
  {| np_array := {| nd_width := 3; nd_channels := None;
                    nd_rows := [[[255]; [255]; [255]]]%Z |} |}.

(** A greyscale image with no row. *)
Definition empty_grey : Image :=
  {| np_array := {| nd_width := 0; nd_channels := None; nd_rows := [] |} |}.

(** The instances as [__init__] leaves them. *)
Definition fresh_rule_based : FigureClassifier.self :=
  {| FigureClassifier.confidence_score := 0.0 |}.
Definition fresh_free : FreeFigureClassifier.self :=
  {| FreeFigureClassifier.confidence_score := 0.0 |}.

(** Features that satisfy rule 1 (circle_ratio > 0.3) and rule 2
    (rectangle_ratio > 0.4, text_ratio < 0.3) at once. *)
Definition pie_and_bars : FigureClassifier.FeatureVector :=
  {| FigureClassifier.aspect_ratio := 1;
     FigureClassifier.brightness := 200;
     FigureClassifier.contrast := 50;
     FigureClassifier.edge_density := 0.05;
     FigureClassifier.color_diversity := 0.01;
     FigureClassifier.text_ratio := 0.1;
     FigureClassifier.line_density := 0;
     FigureClassifier.circle_ratio := 0.5;
     FigureClassifier.rectangle_ratio := 0.5;
     FigureClassifier.symmetry_horizontal := 0.2;
     FigureClassifier.symmetry_vertical := 0.2;
     FigureClassifier.dominant_color_count := 3;
     FigureClassifier.saturation_mean := 10;
     FigureClassifier.hue_variance := 10 |}.

End Inputs.

(** ** The decision list of the specification

    The rule-based policy as the specification words it: an ordered list
    of (predicate, category, confidence) entries evaluated in sequence, the
    first entry whose predicate holds giving the outcome, and a default
    outcome when none holds.  A predicate may raise (the scatter-plot probe
    runs a detection pass of its own). *)

Module DecisionList.
Import Py Np Ext.
Import FigureClassifier.
Local Open Scope py_scope.

Record rule : Type := {
  applies : FeatureVector -> Image -> res bool;
  category : string;
  confidence : float
}.

Fixpoint first_match
    (rules : list rule) (default : string * float)
    (features : FeatureVector) (image : Image) : res (string * float) :=
  match rules with
  | [] => ret default
  | r :: rest =>
      b <- applies r features image ;;
      if b then ret (category r, confidence r)
      else first_match rest default features image
  end.

(** The map heuristic in the specification's words: color_diversity > 0.05,
    0.1 < edge_density < 0.3, both symmetries < 0.3. *)
Definition map_heuristic (f : FeatureVector) : bool :=
  gt (color_diversity f) 0.05
  && lt 0.1 (edge_density f) && lt (edge_density f) 0.3
  && (lt (symmetry_horizontal f) 0.3 && lt (symmetry_vertical f) 0.3).

(** Rules 1 to 9 of the specification, in its order. *)
Definition rules (ext : Extern) : list rule :=
  [ {| applies := fun f _ => ret (gt (circle_ratio f) 0.3);
       category := "pie_chart"; confidence := 0.8 |};
    {| applies := fun f _ =>
         ret (gt (rectangle_ratio f) 0.4 && lt (text_ratio f) 0.3);
       category := "bar_chart"; confidence := 0.7 |};
    {| applies := fun f _ =>
         ret (gt (line_density f) 0.3 && lt (rectangle_ratio f) 0.2);
       category := "line_graph"; confidence := 0.7 |};
    {| applies := fun f _ => ret (gt (text_ratio f) 0.4);
       category := "table"; confidence := 0.6 |};
    {| applies := fun f _ =>
         ret (gt (edge_density f) 0.2 && gt (rectangle_ratio f) 0.2);
       category := "flowchart"; confidence := 0.6 |};
    {| applies := fun f _ =>
         ret (lt (edge_density f) 0.1 && gt (color_diversity f) 0.1);
       category := "photograph"; confidence := 0.6 |};
    {| applies := fun f _ =>
         ret (gt (symmetry_horizontal f) 0.7 || gt (symmetry_vertical f) 0.7);
       category := "scientific_diagram"; confidence := 0.6 |};
    {| applies := _is_scatter_plot ext;
       category := "scatter_plot"; confidence := 0.7 |};
    {| applies := fun f _ => ret (map_heuristic f);
       category := "map"; confidence := 0.6 |} ].

(** Rule 10, the default. *)
Definition default_outcome : string * float := ("diagram", 0.4%float).

(** The outcome of the list as the method delivers it: the category is
    returned and the confidence left in [self.confidence_score], which
    holds the baseline 0.5 when a predicate raised. *)
Definition deliver (r : res (string * float)) : res string * self :=
  match r with
  | inr (c, conf) => (inr c, {| confidence_score := conf |})
  | inl e => (inl e, {| confidence_score := 0.5 |})
  end.

End DecisionList.

(** ** Categories and outcomes of the two strategies *)

Module Catalog.
Import Py.

(** The category and confidence of each [return] of
    [FigureClassifier._rule_based_classification], in source order. *)
Definition rule_outcomes : list (string * float) :=
  [ ("pie_chart", 0.8); ("bar_chart", 0.7); ("line_graph", 0.7);
    ("table", 0.6); ("flowchart", 0.6); ("photograph", 0.6);
    ("scientific_diagram", 0.6); ("scatter_plot", 0.7); ("map", 0.6);
    ("diagram", 0.4) ]%float.

(** The closed enumeration of the caption-keyword classifier: the keys of
    its keyword table. *)
Definition free_categories : list string :=
  dict_keys FreeFigureClassifier.figure_categories.

(** The categories that both strategies can produce. *)
Definition shared_categories : list string :=
  filter (fun c => str_mem c free_categories) (map fst rule_outcomes).

End Catalog.

(** ** Keyword scoring in the specification's words *)

Module CaptionSpec.
Import Py.

(** [w] is a prefix of [s] when letter case is ignored. *)
Fixpoint ci_prefix (w s : string) : bool :=
  match w with
  | EmptyString => true
  | String a w' =>
      match s with
      | EmptyString => false
      | String b s' =>
          Ascii.eqb (lower_ascii a) (lower_ascii b) && ci_prefix w' s'
      end
  end.

(** [w] occurs in [s] as a case-insensitive substring. *)
Fixpoint ci_occurs (w s : string) : bool :=
  ci_prefix w s
  || match s with
     | EmptyString => false
     | String _ r => ci_occurs w r
     end.

(** The sum of the character lengths of a list of keywords. *)
Fixpoint sum_lengths (ws : list string) : Z :=
  match ws with
  | [] => 0
  | w :: r => Z.of_nat (String.length w) + sum_lengths r
  end.

(** Score(category): the summed lengths of the keywords of the category
    that occur in the caption as case-insensitive substrings. *)
Definition score (keywords : list string) (caption : string) : Z :=
  sum_lengths (filter (fun w => ci_occurs w caption) keywords).

(** confidence = min(0.95, 0.5 + score/20) *)
Definition confidence (score : Z) : float :=
  py_min 0.95 (0.5 + Z2F score / 20)%float.

End CaptionSpec.

(** ** The visual-only fallback as a decision table *)

Module VisualFallback.
Import Py Np.

(** The category and confidence of the fallback, by the shape of the image
    array: an array with a channel axis is judged by its colour diversity
    and its aspect ratio, a 2-D array is a generic diagram, and an array
    with no pixel cannot be judged. *)
Definition outcome (image : Image) : string * float :=
  let a := np_array image in
  let h := shape0 a in
  let w := shape1 a in
  if (h =? 0)%Z then ("unknown", 0.3%float)
  else if ndim3 a then
    if (w =? 0)%Z then ("unknown", 0.3%float)
    else
      let ar := (Z2F w / Z2F h)%float in
      let cd := (Z2F (unique_count (pixel_rows a)) / Z2F (h * w))%float in
      if gt cd 0.1 then ("photograph", 0.6%float)
      else if gt ar 2 then ("timeline", 0.5%float)
      else if le 0.8 ar && le ar 1.2 then ("chart_other", 0.5%float)
      else ("diagram_other", 0.4%float)
  else ("diagram_other", 0.4%float).

End VisualFallback.

(** ** ai_classifier.py: call_gemini_with_fallback and class AIFigureClassifier *)

Module AIFigureClassifier.
Import Py Np Ext.
Local Open Scope py_scope.

(** What the three statements of the [try] block do for one API key
    ([configure], [GenerativeModel], [generate_content] and [response.text]):
    they deliver the text, or raise [ResourceExhausted], or raise another
    exception. *)
Inductive gemini_outcome : Type :=
| Answer (text : string)
| ResourceExhausted
| OtherException (e : exn).

(** [c.isspace()] on an ASCII character. *)
Definition is_space (c : ascii) : bool :=
  let n := nat_of_ascii c in
  ((9 <=? n)%nat && (n <=? 13)%nat) || ((28 <=? n)%nat && (n <=? 32)%nat).

(** [s.strip()] of an ASCII string: the white space of ASCII is removed at
    both ends ([str.strip] also removes the white space outside ASCII,
    U+00A0 for one; a statement that depends on the stripped text takes
    [isascii] as a hypothesis, or holds whatever is stripped). *)
Fixpoint lstrip (s : string) : string :=
  match s with
  | EmptyString => EmptyString
  | String c r => if is_space c then lstrip r else s
  end.
Fixpoint rstrip (s : string) : string :=
  match s with
  | EmptyString => EmptyString
  | String c r =>
      match rstrip r with
      | EmptyString => if is_space c then EmptyString else String c EmptyString
      | r' => String c r'
      end
  end.
Definition strip (s : string) : string := rstrip (lstrip s).

(** [s.split(sep)[0]] for a one-character separator: the text before its
    first occurrence, the whole text when there is none. *)
Fixpoint split_first (sep : ascii) (s : string) : string :=
  match s with
  | EmptyString => EmptyString
  | String c r =>
      if Ascii.eqb c sep then EmptyString else String c (split_first sep r)
  end.

Definition prompt : string :=
  "You are an expert document visual analyst with more than 20 years of experience and 4 PHDs in the field of Figure classification and identification. "
  ++ "Classify the given figure into one of the following types: "
  ++ "Bar Chart, Line Graph, Pie Chart, Timeline, Photograph, Table, Other Chart, Other Diagram. "
  ++ "Also describe the layout and visual structure in one line.".

Definition _parse_response (response : string)
  : string * float * string * string :=
  let response := strip response in
  let lower_resp := lower response in
  let '(tag, confidence) :=
    if str_in "bar chart" lower_resp then ("📊 Bar Chart", 90.0%float)
    else if str_in "line graph" lower_resp then ("📈 Line Graph", 90.0%float)
    else if str_in "pie chart" lower_resp then ("🟢 Pie Chart", 90.0%float)
    else if str_in "timeline" lower_resp then ("⏰ Timeline", 60.0%float)
    else if str_in "photograph" lower_resp || str_in "photo" lower_resp
    then ("📷 Photograph", 40.0%float)
    else if str_in "table" lower_resp then ("📋 Table", 70.0%float)
    else if str_in "chart" lower_resp then ("📊 Other Chart", 50.0%float)
    else ("📐 Other Diagram", 40.0%float) in
  let desc := split_first "." response in
  (tag, confidence, desc, response).

Section WithServices.
Variable ext : Extern.
(** The generative-vision service, by API key, prompt and image bytes. *)
Variable generate_content : string -> string -> list Z -> gemini_outcome.
(** [st.secrets["google_ai"]["api_key1"]] and ["api_key2"]. *)
Variables api_key1 api_key2 : string.
(** [hashlib.sha256(b).hexdigest()] *)
Variable sha256_hexdigest : list Z -> string.

Definition API_KEYS : list string := [api_key1; api_key2].

Definition get_image_hash (image_bytes : list Z) : string :=
  sha256_hexdigest image_bytes.

(** The [for key in API_KEYS] loop from a given key on. *)
Fixpoint try_keys (keys : list string) (prompt : string) (image_bytes : list Z)
  : string :=
  match keys with
  | [] => "⚠️ Gemini quota exceeded. Used local analysis."
  | key :: rest =>
      match generate_content key prompt image_bytes with
      | Answer text => text
      | ResourceExhausted => try_keys rest prompt image_bytes
      | OtherException e => "⚠️ Gemini API error: " ++ e
      end
  end.

(** One evaluation of the function ([st.cache_data] returns the stored
    result of the first evaluation on later calls with equal arguments). *)
Definition call_gemini_with_fallback (prompt : string) (image_bytes : list Z)
  : string :=
  try_keys API_KEYS prompt image_bytes.

Definition _image_to_bytes (image : Image) : res (list Z) :=
  save_png ext image.

(** No [try] surrounds the body: an exception of [image.save] reaches the
    caller. *)
Definition classify_figure (image : Image) : res (dict pyval) :=
  image_bytes <- _image_to_bytes image ;;
  let image_hash := get_image_hash image_bytes in
  let response := call_gemini_with_fallback prompt image_bytes in
  let '(tag, confidence, desc, reason) :=
    if str_in "Gemini quota exceeded" response
       || String.prefix "⚠️ Gemini" response
    then ("📐 Other Diagram", 30.0%float,
          "Grayscale content, likely diagram or text", response)
    else _parse_response response in
  ret [ ("type", VStr tag);
        ("confidence", VFloat confidence);
        ("description", VStr desc);
        ("reasoning", VStr reason) ].

End WithServices.

End AIFigureClassifier.

(** ** The visual bonuses as a formula *)

Module VisualBonus.
Import Py Np.

(** The points that [_enhance_classification_with_analysis] adds to the
    score of category [k] on [image]: 5 to the plot categories in the
    aspect-ratio band [0.8, 1.5], 8 to timeline and flowchart above 2, and,
    for an array with a channel axis, 6 to photograph, infographic and map
    above colour diversity 0.1 or else 4 to bar_chart and line_graph below
    0.01.  Nothing is added when a division fails (no row; or a channel
    axis and no column). *)
Definition bonus (image : Image) (k : string) : Z :=
  let a := np_array image in
  let h := shape0 a in
  let w := shape1 a in
  if (h =? 0)%Z then 0
  else if ndim3 a && (h * w =? 0)%Z then 0
  else
    let ar := (Z2F w / Z2F h)%float in
    (if le 0.8 ar && le ar 1.5
        && str_mem k ["bar_chart"; "line_graph"; "scatter_plot"]
     then 5 else 0)
    + (if gt ar 2 && str_mem k ["timeline"; "flowchart"] then 8 else 0)
    + (if ndim3 a then
         let cd := (Z2F (unique_count (pixel_rows a)) / Z2F (h * w))%float in
         if gt cd 0.1
         then (if str_mem k ["photograph"; "infographic"; "map"] then 6 else 0)
         else if lt cd 0.01
         then (if str_mem k ["bar_chart"; "line_graph"] then 4 else 0)
         else 0
       else 0).

End VisualBonus.

(** ** The captions synthesized locally *)

Module LocalCaption.
Import Py Np Ext.

Definition aspect_words : list (list string) := [[]; ["wide"]; ["tall"]].
Definition colour_words : list (list string) := [[]; ["colorful"]; ["simple"]].
Definition edge_words : list (list string) :=
  [["detailed diagram"]; ["chart"]; ["image"]].
Definition light_words : list (list string) := [[]; ["bright"]; ["dark"]].

(** One word at most per band, the edge band always giving one; and the
    caption of the failure path. *)
Definition captions : list string :=
  "visual content"
  :: flat_map
       (fun a =>
          flat_map
            (fun c =>
               flat_map
                 (fun e => map (fun b => join " " (a ++ c ++ e ++ b)%list)
                               light_words)
                 edge_words)
            colour_words)
       aspect_words.

(** What the keywords find in the captions: the scores, by category. *)
Definition score_tables : list (dict Z) :=
  [ [("infographic", 6%Z)];
    [("flowchart", 7%Z); ("diagram_other", 7%Z)];
    [("chart_other", 5%Z)];
    [("photograph", 5%Z)] ].

(** No caption comes from the service: the image cannot be saved, the
    request raises, or the status is not 200. *)
Definition service_unavailable (ext : Extern) (image : Image) : Prop :=
  match save_png ext image with
  | inl _ => True
  | inr img_buffer =>
      match requests_post ext img_buffer with
      | HttpRaises _ => True
      | HttpResponse status_code _ => status_code <> 200%Z
      end
  end.

End LocalCaption.

(** ** The bands of the local caption, in the specification's words *)

Module CaptionBands.
Import Py.

(** The qualitative word of each measurement: wide or tall, colorful or
    simple, detailed diagram or chart or image, bright or dark. *)
Definition aspect_band (aspect_ratio : float) : list string :=
  if gt aspect_ratio 1.5 then ["wide"]
  else if lt aspect_ratio 0.7 then ["tall"]
  else [].
Definition colour_band (color_diversity : float) : list string :=
  if gt color_diversity 0.1 then ["colorful"]
  else if lt color_diversity 0.01 then ["simple"]
  else [].
Definition edge_band (edge_density : float) : list string :=
  if gt edge_density 0.2 then ["detailed diagram"]
  else if gt edge_density 0.1 then ["chart"]
  else ["image"].
Definition light_band (brightness : float) : list string :=
  if gt brightness 200 then ["bright"]
  else if lt brightness 100 then ["dark"]
  else [].

(** The caption: the words of the four bands, in this order, separated by
    blanks. *)
Definition caption
    (aspect_ratio color_diversity edge_density brightness : float) : string :=
  join " " (aspect_band aspect_ratio ++ colour_band color_diversity
            ++ edge_band edge_density ++ light_band brightness)%list.

End CaptionBands.

(** ** Uniform images *)

Module Uniform.
Import Py Np.

(** The image of [h] rows and [w] columns whose pixels are all alike: one
    grey level, or one colour. *)
Definition grey (h w : nat) (v : Z) : Image :=
  {| np_array := {| nd_width := w; nd_channels := None;
                    nd_rows := repeat (repeat [v] w) h |} |}.
Definition rgb (h w : nat) (r g b : Z) : Image :=
  {| np_array := {| nd_width := w; nd_channels := Some 3%nat;
                    nd_rows := repeat (repeat [r; g; b] w) h |} |}.


End Uniform.

(** ** A table over the machine integers *)

Module PixelCounts.
Import Uint63.



End PixelCounts.

(** ** Further concrete inputs *)

Module FurtherInputs.
Import Py Np Ext Inputs.

(** One white pixel with an alpha channel. *)
Definition rgba_pixel : Image :=
  {| np_array := {| nd_width := 1; nd_channels := Some 4%nat;
                    nd_rows := [[[255; 255; 255; 255]]]%Z |} |}.

(** The uniform third-party code, but for a correlation that is 1 on
    samples that are not empty. *)
Definition correlating_extern : Extern :=
  let e := uniform_extern service_down in
  {| cvtColor := cvtColor e;
     Canny := Canny e;
     morphologyEx_close3 := morphologyEx_close3 e;
     findContours := findContours e;
     contourArea := contourArea e;
     boundingRect := boundingRect e;
     arcLength := arcLength e;
     approxPolyDP := approxPolyDP e;
     HoughLinesP := HoughLinesP e;
     HoughCircles := HoughCircles e;
     np_mean := np_mean e;
     np_std := np_std e;
     np_mean_channel := np_mean_channel e;
     np_var_channel := np_var_channel e;
     np_corrcoef := fun x _ => match x with [] => nan | _ => 1%float end;
     np_mean_axis2 := np_mean_axis2 e;
     KMeans_fit := KMeans_fit e;
     convert_L := convert_L e;
     save_png := save_png e;
     requests_post := requests_post e |}.

(** A generative service whose keys are all exhausted, one that answers on
    every key, and one that answers on the first key only. *)
Definition exhausted_service (key prompt : string) (image_bytes : list Z)
  : AIFigureClassifier.gemini_outcome :=
  AIFigureClassifier.ResourceExhausted.
Definition answering_service (key prompt : string) (image_bytes : list Z)
  : AIFigureClassifier.gemini_outcome :=
  AIFigureClassifier.Answer "A bar chart. Three bars over one axis.".
Definition first_key_service (key prompt : string) (image_bytes : list Z)
  : AIFigureClassifier.gemini_outcome :=
  if String.eqb key "key1"
  then AIFigureClassifier.Answer "A bar chart. Three bars over one axis."
  else AIFigureClassifier.ResourceExhausted.

(** An answer of the service between blanks. *)
Definition padded_answer : string :=
  "  A bar chart. Three bars over one axis.  ".

(** A colour image with no row. *)
Definition empty_rgb : Image :=
  {| np_array := {| nd_width := 0; nd_channels := Some 3%nat;
                    nd_rows := [] |} |}.

(** A digest that is not looked at. *)
Definition constant_digest (image_bytes : list Z) : string := "e3b0c442".

End FurtherInputs.

(** * Properties *)

Section Properties.
Import Py Np Ext.
Variable ext : Extern.

Lemma map_heuristic_is_map_like :
  forall features image,
    FigureClassifier._is_map_like features image
    = DecisionList.map_heuristic features.
Proof.
  intros features image.
  unfold FigureClassifier._is_map_like, DecisionList.map_heuristic.
  repeat rewrite andb_assoc. reflexivity.
Qed.

(** C1. [_rule_based_classification] is the ordered, first-match-wins
    decision list of the specification, with its ten rules and
    confidences; in particular features that satisfy both rule 1 and
    rule 2 are classified pie_chart with confidence 0.8. *)
Theorem rule_based_classification_is_decision_list :
  forall (features : FigureClassifier.FeatureVector) (image : Image)
         (s : FigureClassifier.self),
    FigureClassifier._rule_based_classification ext features image s
    = DecisionList.deliver
        (DecisionList.first_match (DecisionList.rules ext)
           DecisionList.default_outcome features image)
    /\ (gt (FigureClassifier.circle_ratio features) 0.3 = true ->
        gt (FigureClassifier.rectangle_ratio features) 0.4
        && lt (FigureClassifier.text_ratio features) 0.3 = true ->
        FigureClassifier._rule_based_classification ext features image s
        = (inr "pie_chart", {| FigureClassifier.confidence_score := 0.8 |})).
Proof.
  intros features image s. split.
  - unfold FigureClassifier._rule_based_classification, DecisionList.rules.
    cbn [DecisionList.first_match DecisionList.applies DecisionList.category
         DecisionList.confidence bind ret].
    destruct (gt (FigureClassifier.circle_ratio features) 0.3);
      [reflexivity|].
    destruct (gt (FigureClassifier.rectangle_ratio features) 0.4
              && lt (FigureClassifier.text_ratio features) 0.3);
      [reflexivity|].
    destruct (gt (FigureClassifier.line_density features) 0.3
              && lt (FigureClassifier.rectangle_ratio features) 0.2);
      [reflexivity|].
    destruct (gt (FigureClassifier.text_ratio features) 0.4); [reflexivity|].
    destruct (gt (FigureClassifier.edge_density features) 0.2
              && gt (FigureClassifier.rectangle_ratio features) 0.2);
      [reflexivity|].
    destruct (lt (FigureClassifier.edge_density features) 0.1
              && gt (FigureClassifier.color_diversity features) 0.1);
      [reflexivity|].
    destruct (gt (FigureClassifier.symmetry_horizontal features) 0.7
              || gt (FigureClassifier.symmetry_vertical features) 0.7);
      [reflexivity|].
    destruct (FigureClassifier._is_scatter_plot ext features image)
      as [e | [|]]; [reflexivity | reflexivity |].
    rewrite map_heuristic_is_map_like.
    destruct (DecisionList.map_heuristic features); reflexivity.
  - intros H1 _.
    unfold FigureClassifier._rule_based_classification.
    rewrite H1. reflexivity.
Qed.

(** *** The caption handed to keyword scoring *)

(** Case analysis on the float comparisons a goal branches on. *)
Ltac case_cmp :=
  match goal with
  | |- context [if gt ?a ?b then _ else _] => destruct (gt a b)
  | |- context [if lt ?a ?b then _ else _] => destruct (lt a b)
  | |- context [if le ?a ?b && le ?c ?d then _ else _] =>
      destruct (le a b && le c d)
  end.

(** The caption synthesized locally is never the empty string. *)
Lemma analyze_image_locally_nonempty :
  forall image, FreeFigureClassifier._analyze_image_locally ext image <> "".
Proof.
  intros image. unfold FreeFigureClassifier._analyze_image_locally.
  destruct (int_truediv (shape1 (np_array image)) (shape0 (np_array image)))
    as [e | aspect_ratio]; cbn [bind try_except]; [discriminate|].
  destruct (ndim3 (np_array image)).
  - destruct (int_truediv _ _) as [e | color_diversity];
      cbn [bind try_except]; [discriminate|].
    destruct (np_mean_axis2 ext (np_array image)) as [e | gray];
      cbn [bind try_except ret]; [discriminate|].
    repeat case_cmp; cbn; discriminate.
  - cbn [bind try_except ret].
    repeat case_cmp; cbn; discriminate.
Qed.

(** C7. When the captioning call raises (time-out, network error) or
    answers a status other than 200, the description is the caption
    synthesized locally, which is built from four bands: one word at most
    for the aspect ratio w / h (wide, tall), one at most for the colour
    diversity (colorful, simple), one for the edge density (detailed
    diagram, chart, image) and one at most for the brightness (bright,
    dark), an array without channel axis having colour diversity and edge
    density 0; when a measurement fails the caption is "visual content".
    That caption is never empty: on this path keyword scoring is never
    given an empty description. *)
Theorem unavailable_service_gives_local_caption :
  forall (image : Image) (img_buffer : list Z),
    save_png ext image = inr img_buffer ->
    match requests_post ext img_buffer with
    | HttpRaises _ => True
    | HttpResponse status_code _ => status_code <> 200%Z
    end ->
    FreeFigureClassifier._get_image_description ext image
    = JStr (FreeFigureClassifier._analyze_image_locally ext image)
    /\ FreeFigureClassifier._analyze_image_locally ext image <> ""
    /\ lower (FreeFigureClassifier._analyze_image_locally ext image) <> ""
    /\ (shape0 (np_array image) = 0%Z ->
        FreeFigureClassifier._analyze_image_locally ext image
        = "visual content")
    /\ (shape0 (np_array image) <> 0%Z ->
        ndim3 (np_array image) = false ->
        FreeFigureClassifier._analyze_image_locally ext image
        = CaptionBands.caption
            (Z2F (shape1 (np_array image)) / Z2F (shape0 (np_array image)))
            0 0 (np_mean ext (np_array image)))
    /\ (shape0 (np_array image) <> 0%Z ->
        ndim3 (np_array image) = true ->
        FreeFigureClassifier._analyze_image_locally ext image
        = if (shape1 (np_array image) =? 0)%Z then "visual content"
          else
            match np_mean_axis2 ext (np_array image) with
            | inl _ => "visual content"
            | inr gray =>
                CaptionBands.caption
                  (Z2F (shape1 (np_array image))
                   / Z2F (shape0 (np_array image)))
                  (Z2F (unique_count (pixel_rows (np_array image)))
                   / Z2F (shape0 (np_array image) * shape1 (np_array image)))
                  (Z2F (count_positive
                          (FreeFigureClassifier._simple_edge_detection
                             ext gray))
                   / Z2F (shape0 (np_array image) * shape1 (np_array image)))
                  (np_mean ext (np_array image))
            end).
Proof.
  intros image img_buffer Hsave Hpost.
  split; [| split; [| split; [| split; [| split]]]].
  - unfold FreeFigureClassifier._get_image_description.
    rewrite Hsave. cbn [bind].
    destruct (requests_post ext img_buffer) as [e | status_code body].
    + reflexivity.
    + destruct (Z.eqb_spec status_code 200) as [Heq | Hne];
        [contradiction | reflexivity].
  - apply analyze_image_locally_nonempty.
  - pose proof (analyze_image_locally_nonempty image) as Hne.
    destruct (FreeFigureClassifier._analyze_image_locally ext image);
      [congruence | discriminate].
  - intros Hh. unfold FreeFigureClassifier._analyze_image_locally, int_truediv.
    rewrite Hh. reflexivity.
  - intros Hh Hnd.
    unfold FreeFigureClassifier._analyze_image_locally, int_truediv.
    rewrite (proj2 (Z.eqb_neq _ _) Hh), Hnd. cbn [bind try_except ret].
    unfold CaptionBands.caption, CaptionBands.aspect_band,
      CaptionBands.colour_band, CaptionBands.edge_band,
      CaptionBands.light_band.
    change (gt 0 0.1) with false. change (lt 0 0.01) with true.
    change (gt 0 0.2) with false. cbv iota.
    repeat case_cmp; reflexivity.
  - intros Hh Hnd.
    unfold FreeFigureClassifier._analyze_image_locally, int_truediv.
    rewrite (proj2 (Z.eqb_neq _ _) Hh), Hnd. cbn [bind try_except ret].
    destruct (Z.eqb_spec (shape1 (np_array image)) 0) as [Hw | Hw].
    + rewrite Hw, Z.mul_0_r. reflexivity.
    + rewrite (proj2 (Z.eqb_neq (shape0 (np_array image)
                                  * shape1 (np_array image)) 0))
        by (intros Hz; apply Z.mul_eq_0 in Hz; tauto).
      cbn [bind try_except ret].
      destruct (np_mean_axis2 ext (np_array image)) as [e | gray];
        cbn [bind try_except ret]; [reflexivity |].
      unfold CaptionBands.caption, CaptionBands.aspect_band,
        CaptionBands.colour_band, CaptionBands.edge_band,
        CaptionBands.light_band.
      repeat case_cmp; reflexivity.
Qed.

(** *** An empty caption from the service *)


Lemma enhance_no_scores :
  forall image,
    FreeFigureClassifier._enhance_classification_with_analysis image [] = [].
Proof.
  intros image.
  unfold FreeFigureClassifier._enhance_classification_with_analysis.
  destruct (int_truediv (shape1 (np_array image)) (shape0 (np_array image)))
    as [e | ar]; cbn [bind try_except]; [reflexivity|].
  destruct (ndim3 (np_array image)).
  - destruct (int_truediv _ _) as [e | cd]; cbn [bind try_except];
      [reflexivity|].
    repeat case_cmp; reflexivity.
  - repeat case_cmp; reflexivity.
Qed.


(** *** Outcomes of the rule-based policy *)

(** Membership of a closed element in a closed list. *)
Ltac listed := simpl In; repeat (first [left; reflexivity | right]).

(** Every run of the policy ends in one of the ten listed outcomes, or in
    the exception of the scatter-plot probe with the baseline confidence. *)
Lemma rule_based_classification_outcomes :
  forall features image s,
    (exists e,
        FigureClassifier._rule_based_classification ext features image s
        = (inl e, {| FigureClassifier.confidence_score := 0.5 |}))
    \/ (exists c x,
           In (c, x) Catalog.rule_outcomes
           /\ FigureClassifier._rule_based_classification ext features image s
              = (inr c, {| FigureClassifier.confidence_score := x |})).
Proof.
  intros features image s.
  unfold FigureClassifier._rule_based_classification.
  repeat match goal with
         | |- context [if ?b then (_, _) else _] => destruct b
         end;
    try (right; do 2 eexists; refine (conj _ eq_refl); listed).
  all: destruct (FigureClassifier._is_scatter_plot ext features image)
         as [e | [|]];
    [ left; eexists; reflexivity
    | right; do 2 eexists; refine (conj _ eq_refl); listed .. ].
Qed.

(** *** The rendered type strings *)

(** C6 (as the code has it). Of the nine categories that both strategies
    can produce, the rendered [type] string is the same for bar_chart,
    line_graph, table, photograph and map; for pie_chart, flowchart,
    scientific_diagram and scatter_plot the two strategies print different
    glyphs before the same Title Case label. *)
Theorem type_strings_of_shared_categories :
  (forall features image s,
      match FigureClassifier._rule_based_classification ext features image s with
      | (inr c, _) => In c (map fst Catalog.rule_outcomes)
      | (inl _, _) => True
      end)
  /\ Catalog.shared_categories
     = [ "pie_chart"; "bar_chart"; "line_graph"; "table"; "flowchart";
         "photograph"; "scientific_diagram"; "scatter_plot"; "map" ]
  /\ Forall (fun c => FigureClassifier._map_to_label c
                      = FreeFigureClassifier.type_of c)
            [ "bar_chart"; "line_graph"; "table"; "photograph"; "map" ]
  /\ Forall (fun c => FigureClassifier._map_to_label c
                      <> FreeFigureClassifier.type_of c)
            [ "pie_chart"; "flowchart"; "scientific_diagram"; "scatter_plot" ]
  /\ Forall2 (fun c glyphs =>
                FigureClassifier._map_to_label c
                = fst glyphs ++ " " ++ title (replace_char "_" " " c)
                /\ FreeFigureClassifier.type_of c
                   = snd glyphs ++ " " ++ title (replace_char "_" " " c))
             Catalog.shared_categories
             [ ("🟢", "🥧"); ("📊", "📊"); ("📈", "📈"); ("📋", "📋");
               ("📐", "🔁"); ("📷", "📷"); ("📐", "🧪"); ("🔵", "📉");
               ("🗺️", "🗺️") ].
Proof.
  split; [| split; [| split; [| split]]].
  - intros features image s.
    destruct (rule_based_classification_outcomes features image s)
      as [[e He] | [c [x [Hin He]]]]; rewrite He; [exact I|].
    apply (in_map fst) in Hin. exact Hin.
  - reflexivity.
  - repeat constructor.
  - repeat constructor; intro H; apply String.eqb_eq in H;
      vm_compute in H; discriminate.
  - repeat constructor.
Qed.

(** *** The boundary of the rule-based classifier *)

(** C3 (as the code has it). [classify_figure] of the rule-based classifier
    returns a dictionary on every image.  When feature extraction or rule
    evaluation raises [e], the dictionary is the degraded result: type
    "📐 Other Diagram", confidence 30, description "Grayscale content,
    likely diagram or text", reasoning carrying the text of [e]; otherwise
    it is the result of the rule that matched. *)
Theorem rule_based_classify_figure_never_raises :
  forall (image : Image) (s : FigureClassifier.self),
    (exists e,
        (FigureClassifier._extract_features ext image = inl e
         \/ exists features s',
             FigureClassifier._extract_features ext image = inr features
             /\ FigureClassifier._rule_based_classification ext features image s
                = (inl e, s'))
        /\ fst (FigureClassifier.classify_figure ext image s)
           = [ ("type", VStr "📐 Other Diagram");
               ("confidence", VFloat 30);
               ("description", VStr "Grayscale content, likely diagram or text");
               ("reasoning", VStr ("Error during classification: " ++ e)) ])
    \/ (exists features category s',
           FigureClassifier._extract_features ext image = inr features
           /\ FigureClassifier._rule_based_classification ext features image s
              = (inr category, s')
           /\ FigureClassifier.classify_figure ext image s
              = ([ ("type", VStr (FigureClassifier._map_to_label category));
                   ("confidence",
                    VFloat (py_round1
                              (FigureClassifier.confidence_score s' * 100)));
                   ("description",
                    VStr (FigureClassifier._get_brief_description category));
                   ("reasoning",
                    VStr ("Rule-based decision based on visual features: "
                          ++ category)) ],
                 s')).
Proof.
  intros image s.
  unfold FigureClassifier.classify_figure.
  destruct (FigureClassifier._extract_features ext image) as [e | features].
  - left. exists e. split; [left; reflexivity | reflexivity].
  - destruct (FigureClassifier._rule_based_classification ext features image s)
      as [[e | category] s'] eqn:Hrule.
    + left. exists e. split; [| reflexivity].
      right. exists features, s'. split; [reflexivity | exact Hrule].
    + right. exists features, category, s'.
      split; [reflexivity | split; [exact Hrule | reflexivity]].
Qed.

(** *** The fields of the results *)

(** C8 (where the code departs from it). The result of the rule-based
    classifier always has exactly the fields type, confidence, description
    and reasoning.  The result of the caption-keyword classifier always
    has confidence, description and reasoning, but it has a [type] field
    only when the description is a string: on the failure path of its
    [classify_figure] no [type] is stored, as for an image whose caption
    arrives as a JSON null. *)
Theorem result_fields :
  (forall image s,
      dict_keys (fst (FigureClassifier.classify_figure ext image s))
      = ["type"; "confidence"; "description"; "reasoning"])
  /\ (forall image s,
         let result := fst (FreeFigureClassifier.classify_figure ext image s) in
         dict_mem result "confidence" = true
         /\ dict_mem result "description" = true
         /\ dict_mem result "reasoning" = true
         /\ dict_mem result "type"
            = match FreeFigureClassifier._get_image_description ext image with
              | JStr _ => true
              | _ => false
              end)
  /\ dict_keys
       (fst (FreeFigureClassifier.classify_figure
               (Inputs.uniform_extern (Inputs.service_says JNull))
               Inputs.white_pixel_rgb
               {| FreeFigureClassifier.confidence_score := 0 |}))
     = ["classification"; "confidence"; "description"; "details"; "reasoning"].
Proof.
  split; [| split].
  - intros image s. unfold FigureClassifier.classify_figure.
    destruct (FigureClassifier._extract_features ext image) as [e | features];
      [reflexivity|].
    destruct (FigureClassifier._rule_based_classification ext features image s)
      as [[e | category] s']; reflexivity.
  - intros image s. unfold FreeFigureClassifier.classify_figure.
    destruct (FreeFigureClassifier._get_image_description ext image)
      as [ | b | n | description | l | d ].
    4: { unfold FreeFigureClassifier._classify_from_description.
         destruct (FreeFigureClassifier._enhance_classification_with_analysis
                     _ _) as [| first rest].
         - unfold FreeFigureClassifier._classify_by_visual_analysis.
           match goal with
           | |- context [match ?b with inl _ => _ | inr _ => _ end] =>
               destruct b as [e | [[classification confidence] ar]]
           end; repeat split; reflexivity.
         - repeat split; reflexivity. }
    all: repeat split; reflexivity.
  - reflexivity.
Qed.

(** *** Keyword scores *)

Lemma fold_add_from :
  forall (l : list Z) (a : Z),
    fold_left Z.add l a = (a + fold_left Z.add l 0)%Z.
Proof.
  induction l as [| x l IH]; intros a; cbn [fold_left].
  - lia.
  - rewrite IH, (IH (0 + x)%Z). lia.
Qed.

Lemma fold_add_sum_lengths :
  forall ws,
    fold_left Z.add (map (fun w => Z.of_nat (String.length w)) ws) 0%Z
    = CaptionSpec.sum_lengths ws.
Proof.
  induction ws as [| w ws IH]; cbn [map fold_left CaptionSpec.sum_lengths].
  - reflexivity.
  - rewrite fold_add_from, IH. lia.
Qed.

Lemma sum_lengths_filter_range :
  forall (p : string -> bool) ws,
    (0 <= CaptionSpec.sum_lengths (filter p ws) <= CaptionSpec.sum_lengths ws)%Z.
Proof.
  induction ws as [| w ws IH]; cbn [filter CaptionSpec.sum_lengths].
  - lia.
  - destruct (p w); cbn [CaptionSpec.sum_lengths]; lia.
Qed.

Lemma lower_cons_fixed :
  forall a w, lower (String a w) = String a w -> lower_ascii a = a /\ lower w = w.
Proof.
  intros a w H. cbn [lower] in H. inversion H as [[Ha Hw]].
  rewrite Ha, Hw. split; assumption.
Qed.

Lemma prefix_of_lower :
  forall w s, lower w = w -> String.prefix w (lower s) = CaptionSpec.ci_prefix w s.
Proof.
  induction w as [| a w IH]; intros s Hw.
  - destruct s; reflexivity.
  - apply lower_cons_fixed in Hw. destruct Hw as [Ha Hw].
    destruct s as [| b s]; [reflexivity|].
    cbn [lower String.prefix CaptionSpec.ci_prefix].
    rewrite Ha.
    destruct (ascii_dec a (lower_ascii b)) as [Heq | Hne].
    + rewrite (proj2 (Ascii.eqb_eq _ _) Heq). cbn [andb]. apply IH, Hw.
    + rewrite (proj2 (Ascii.eqb_neq _ _) Hne). reflexivity.
Qed.

(** The test [w in description.lower()] of the source is the
    case-insensitive occurrence of a lower-case keyword. *)
Lemma str_in_lower :
  forall w s, lower w = w -> str_in w (lower s) = CaptionSpec.ci_occurs w s.
Proof.
  intros w s Hw. induction s as [| b s IH].
  - cbn [lower str_in CaptionSpec.ci_occurs].
    rewrite <- (prefix_of_lower w "" Hw). cbn [lower].
    destruct (String.prefix w ""); reflexivity.
  - cbn [str_in CaptionSpec.ci_occurs lower].
    change (String (lower_ascii b) (lower s)) with (lower (String b s)).
    rewrite (prefix_of_lower w (String b s) Hw), IH.
    destruct (CaptionSpec.ci_prefix w (String b s)); reflexivity.
Qed.

Lemma keywords_are_lower_case :
  Forall (fun kv => Forall (fun w => lower w = w) (snd kv))
         FreeFigureClassifier.figure_categories.
Proof. repeat constructor. Qed.

Lemma filter_ext_Forall :
  forall (A : Type) (p q : A -> bool) (l : list A),
    Forall (fun x => p x = q x) l -> filter p l = filter q l.
Proof.
  intros A p q l H. induction H as [| x l Hx _ IH]; cbn [filter].
  - reflexivity.
  - rewrite Hx, IH. reflexivity.
Qed.

Lemma keyword_score_is_spec_score :
  forall v caption,
    Forall (fun w => lower w = w) v ->
    FreeFigureClassifier.keyword_score v (lower caption)
    = CaptionSpec.score v caption.
Proof.
  intros v caption Hv.
  unfold FreeFigureClassifier.keyword_score, CaptionSpec.score.
  rewrite fold_add_sum_lengths. f_equal.
  apply filter_ext_Forall.
  induction Hv as [| w v Hw _ IH]; constructor; [| exact IH].
  apply str_in_lower, Hw.
Qed.

(** Every stored keyword score lies between 1 and 47, the largest total
    keyword length of a category. *)
Lemma keyword_scores_range :
  forall desc_lower,
    Forall (fun kv => (1 <= snd kv <= 47)%Z)
           (FreeFigureClassifier.keyword_scores desc_lower).
Proof.
  intros desc_lower. unfold FreeFigureClassifier.keyword_scores.
  apply Forall_forall. intros [k n] Hin.
  apply filter_In in Hin. destruct Hin as [Hin Hpos].
  apply in_map_iff in Hin. destruct Hin as [[k' v] [Heq Hin]].
  cbn [fst snd] in *. inversion Heq; subst k n; clear Heq.
  apply Z.ltb_lt in Hpos. split; [lia|].
  assert (Htot : Forall (fun kv => (CaptionSpec.sum_lengths (snd kv) <= 47)%Z)
                        FreeFigureClassifier.figure_categories).
  { repeat constructor; cbn; lia. }
  rewrite Forall_forall in Htot. specialize (Htot _ Hin). cbn [snd] in Htot.
  unfold FreeFigureClassifier.keyword_score.
  rewrite fold_add_sum_lengths.
  pose proof (sum_lengths_filter_range (fun w => str_in w desc_lower) v).
  lia.
Qed.

(** *** Visual bonuses and the winning score *)

Lemma dict_get_Forall :
  forall (V : Type) (Q : V -> Prop) (d : dict V) k v,
    Forall (fun kv => Q (snd kv)) d -> dict_get d k = Some v -> Q v.
Proof.
  intros V Q d k v H. induction H as [| [k' v'] d Hx _ IH]; cbn [dict_get].
  - discriminate.
  - destruct (String.eqb k k'); [| exact IH].
    intros Heq. inversion Heq; subst. exact Hx.
Qed.

Lemma dict_set_Forall :
  forall (V : Type) (Q : V -> Prop) (d : dict V) k v,
    Forall (fun kv => Q (snd kv)) d -> Q v ->
    Forall (fun kv => Q (snd kv)) (dict_set d k v).
Proof.
  intros V Q d k v H Hv. induction H as [| [k' v'] d Hx Hd IH]; cbn [dict_set].
  - constructor; [exact Hv | constructor].
  - destruct (String.eqb k k'); constructor; assumption.
Qed.

(** A round of bonuses of [n] points each over the names [ts] raises no
    score by more than [n] per name, and lowers none. *)
Lemma add_bonus_range :
  forall ts n (d : dict Z) lo hi,
    (0 <= n)%Z ->
    Forall (fun kv => (lo <= snd kv <= hi)%Z) d ->
    Forall (fun kv => (lo <= snd kv <= hi + n * Z.of_nat (List.length ts))%Z)
           (FreeFigureClassifier.add_bonus ts n d).
Proof.
  unfold FreeFigureClassifier.add_bonus.
  induction ts as [| t ts IH]; intros n d lo hi Hn Hd; cbn [fold_left].
  - eapply Forall_impl; [| exact Hd].
    intros kv H; cbn beta in *; cbn [List.length]; lia.
  - assert (Hstep :
      Forall (fun kv => (lo <= snd kv <= hi + n)%Z)
             match dict_get d t with
             | Some v => dict_set d t (v + n)%Z
             | None => d
             end).
    { destruct (dict_get d t) as [v |] eqn:Hget.
      - apply (dict_set_Forall Z (fun x => (lo <= x <= hi + n)%Z)).
        + eapply Forall_impl; [| exact Hd]. intros kv H; cbn beta in *; lia.
        + pose proof (dict_get_Forall Z (fun x => (lo <= x <= hi)%Z)
                        d t v Hd Hget) as Hv.
          cbn beta in Hv. lia.
      - eapply Forall_impl; [| exact Hd]. intros kv H; cbn beta in *; lia. }
    specialize (IH n _ lo (hi + n)%Z Hn Hstep).
    eapply Forall_impl; [| exact IH].
    intros kv H; cbn beta in *; cbn [List.length]; lia.
Qed.

Lemma enhance_range :
  forall image scores,
    Forall (fun kv => (1 <= snd kv <= 47)%Z) scores ->
    Forall (fun kv => (1 <= snd kv <= 100)%Z)
           (FreeFigureClassifier._enhance_classification_with_analysis
              image scores).
Proof.
  intros image scores Hs.
  assert (Hweak : Forall (fun kv => (1 <= snd kv <= 100)%Z) scores).
  { eapply Forall_impl; [| exact Hs]. intros kv H; cbn beta in *; lia. }
  unfold FreeFigureClassifier._enhance_classification_with_analysis.
  destruct (int_truediv (shape1 (np_array image)) (shape0 (np_array image)))
    as [e | ar]; cbn [bind try_except]; [exact Hweak|].
  set (e1 := if le 0.8 ar && le ar 1.5
             then FreeFigureClassifier.add_bonus
                    ["bar_chart"; "line_graph"; "scatter_plot"] 5 scores
             else scores).
  assert (H1 : Forall (fun kv => (1 <= snd kv <= 62)%Z) e1).
  { subst e1. destruct (le 0.8 ar && le ar 1.5).
    - pose proof (add_bonus_range ["bar_chart"; "line_graph"; "scatter_plot"]
                    5 scores 1 47 ltac:(lia) Hs) as H.
      eapply Forall_impl; [| exact H]. intros kv Hk; cbn beta in *; cbn [List.length] in Hk; lia.
    - eapply Forall_impl; [| exact Hs]. intros kv Hk; cbn beta in *; lia. }
  set (e2 := if gt ar 2
             then FreeFigureClassifier.add_bonus ["timeline"; "flowchart"] 8 e1
             else e1).
  assert (H2 : Forall (fun kv => (1 <= snd kv <= 78)%Z) e2).
  { subst e2. destruct (gt ar 2).
    - pose proof (add_bonus_range ["timeline"; "flowchart"]
                    8 e1 1 62 ltac:(lia) H1) as H.
      eapply Forall_impl; [| exact H]. intros kv Hk; cbn beta in *; cbn [List.length] in Hk; lia.
    - eapply Forall_impl; [| exact H1]. intros kv Hk; cbn beta in *; lia. }
  assert (H2' : Forall (fun kv => (1 <= snd kv <= 100)%Z) e2).
  { eapply Forall_impl; [| exact H2]. intros kv Hk; cbn beta in *; lia. }
  destruct (ndim3 (np_array image)); [| exact H2'].
  destruct (int_truediv _ _) as [e | cd]; cbn [bind try_except];
    [exact Hweak|].
  destruct (gt cd 0.1); [| destruct (lt cd 0.01)]; cbn [try_except ret].
  - pose proof (add_bonus_range ["photograph"; "infographic"; "map"]
                  6 e2 1 78 ltac:(lia) H2) as H.
    eapply Forall_impl; [| exact H]. intros kv Hk; cbn beta in *; cbn [List.length] in Hk; lia.
  - pose proof (add_bonus_range ["bar_chart"; "line_graph"]
                  4 e2 1 78 ltac:(lia) H2) as H.
    eapply Forall_impl; [| exact H]. intros kv Hk; cbn beta in *; cbn [List.length] in Hk; lia.
  - exact H2'.
Qed.

(** [max_item] returns an item of the list whose value no item exceeds. *)
Lemma max_item_spec :
  forall items best,
    In (FreeFigureClassifier.max_item best items) (best :: items)
    /\ forall x, In x (best :: items) ->
                 (snd x <= snd (FreeFigureClassifier.max_item best items))%Z.
Proof.
  induction items as [| y items IH]; intros best;
    cbn [FreeFigureClassifier.max_item].
  - split; [left; reflexivity|].
    intros x [Hx | []]. subst x. lia.
  - destruct (IH (if (snd best <? snd y)%Z then y else best)) as [Hin Hmax].
    split.
    + destruct Hin as [Heq | Hin].
      * rewrite <- Heq. destruct (snd best <? snd y)%Z;
          [right; left; reflexivity | left; reflexivity].
      * right; right. exact Hin.
    + intros x Hx.
      assert (Hb : (snd best
                    <= snd (if (snd best <? snd y)%Z then y else best))%Z).
      { destruct (Z.ltb_spec (snd best) (snd y)); lia. }
      assert (Hy : (snd y
                    <= snd (if (snd best <? snd y)%Z then y else best))%Z).
      { destruct (Z.ltb_spec (snd best) (snd y)); lia. }
      pose proof (Hmax _ (or_introl eq_refl)) as Hm.
      destruct Hx as [Hx | [Hx | Hx]].
      * subst x. lia.
      * subst x. lia.
      * apply Hmax. right. exact Hx.
Qed.

(** The confidence formula on the scores that can win. *)
Lemma keyword_confidence_range :
  forall n, (1 <= n <= 100)%Z ->
            le 0.3 (CaptionSpec.confidence n) = true
            /\ le 0.5 (CaptionSpec.confidence n) = true
            /\ le (CaptionSpec.confidence n) 0.95 = true.
Proof.
  intros n Hn.
  assert (Hall :
    forallb (fun k => le 0.3 (CaptionSpec.confidence (Z.of_nat k))
                      && (le 0.5 (CaptionSpec.confidence (Z.of_nat k))
                          && le (CaptionSpec.confidence (Z.of_nat k)) 0.95))
            (seq 1 100) = true) by (vm_compute; reflexivity).
  rewrite forallb_forall in Hall.
  specialize (Hall (Z.to_nat n)).
  rewrite Z2Nat.id in Hall by lia.
  assert (Hin : In (Z.to_nat n) (seq 1 100)) by (apply in_seq; lia).
  specialize (Hall Hin).
  apply andb_prop in Hall. destruct Hall as [H1 H2].
  apply andb_prop in H2. destruct H2 as [H2 H3].
  repeat split; assumption.
Qed.

(** C4. In the caption-keyword classifier, on an ASCII caption, the score
    of a category is the sum of the character lengths of its keywords that
    occur in the caption as case-insensitive substrings, and categories of
    score zero are discarded before the visual reweighting; the winner has
    the maximum adjusted score and the confidence is
    min(0.95, 0.5 + score/20).  For the caption "A bar chart comparing
    sales" the result is bar_chart with confidence 0.95, and its score is
    9 when no visual bonus applies. *)
Theorem caption_keyword_scoring :
  (forall caption,
      isascii caption = true ->
      FreeFigureClassifier.keyword_scores (lower caption)
      = filter (fun kv => (0 <? snd kv)%Z)
          (map (fun kv => (fst kv, CaptionSpec.score (snd kv) caption))
               FreeFigureClassifier.figure_categories))
  /\ (forall caption image s first rest,
         isascii caption = true ->
         FreeFigureClassifier._enhance_classification_with_analysis image
           (FreeFigureClassifier.keyword_scores (lower caption))
         = first :: rest ->
         let best := FreeFigureClassifier.max_item first rest in
         In best (first :: rest)
         /\ (forall x, In x (first :: rest) -> (snd x <= snd best)%Z)
         /\ exists result,
             FreeFigureClassifier._classify_from_description
               (JStr caption) image s
             = (inr result,
                {| FreeFigureClassifier.confidence_score :=
                     CaptionSpec.confidence (snd best) |})
             /\ dict_get result "classification" = Some (VStr (fst best))
             /\ dict_get result "confidence"
                = Some (VFloat (CaptionSpec.confidence (snd best))))
  /\ FreeFigureClassifier.keyword_scores (lower "A bar chart comparing sales")
     = [("bar_chart", 9%Z); ("chart_other", 5%Z)]
  /\ CaptionSpec.confidence 9 = 0.95%float
  /\ (forall image s,
         (FreeFigureClassifier._enhance_classification_with_analysis image
            [("bar_chart", 9%Z); ("chart_other", 5%Z)]
          = [("bar_chart", 9%Z); ("chart_other", 5%Z)] ->
          exists result,
            FreeFigureClassifier._classify_from_description
              (JStr "A bar chart comparing sales") image s
            = (inr result, {| FreeFigureClassifier.confidence_score := 0.95 |})
            /\ FreeFigureClassifier.max_item
                 ("bar_chart", 9%Z) [("chart_other", 5%Z)]
               = ("bar_chart", 9%Z)
            /\ dict_get result "classification" = Some (VStr "bar_chart")
            /\ dict_get result "confidence" = Some (VFloat 0.95))).
Proof.
  split; [| split; [| split; [| split]]].
  - intros caption _. unfold FreeFigureClassifier.keyword_scores.
    f_equal. apply map_ext_in. intros [k v] Hin. cbn [fst snd].
    f_equal. apply keyword_score_is_spec_score.
    pose proof keywords_are_lower_case as Hlow.
    rewrite Forall_forall in Hlow. exact (Hlow _ Hin).
  - intros caption image s first rest _ Henh best.
    destruct (max_item_spec rest first) as [Hin Hmax].
    split; [exact Hin | split; [exact Hmax |]].
    unfold FreeFigureClassifier._classify_from_description.
    rewrite Henh. eexists. split; [reflexivity |].
    split; reflexivity.
  - reflexivity.
  - reflexivity.
  - intros image s Hnone.
    unfold FreeFigureClassifier._classify_from_description.
    change (FreeFigureClassifier.keyword_scores
              (lower "A bar chart comparing sales"))
      with [("bar_chart", 9%Z); ("chart_other", 5%Z)].
    rewrite Hnone. eexists. split; [reflexivity |].
    split; [reflexivity | split; reflexivity].
Qed.

(** *** The confidence at the public boundary *)

(** C2 (as the code has it). The rule-based classifier returns its
    confidence scaled by 100 and rounded to one decimal: 80, 70, 60 or 40
    for a matched rule and 30 on the error path, always within [0,100].
    The caption-keyword classifier returns its internal confidence as it
    is, unscaled: a value between 0.3 and 0.95. *)
Theorem confidence_at_the_boundary :
  (forall image s,
      let r := FigureClassifier.classify_figure ext image s in
      dict_get (fst r) "confidence" = Some (VFloat 30)
      \/ exists x,
          In x [0.8; 0.7; 0.6; 0.4]%float
          /\ FigureClassifier.confidence_score (snd r) = x
          /\ dict_get (fst r) "confidence"
             = Some (VFloat (py_round1 (x * 100)))
          /\ In (py_round1 (x * 100)) [80; 70; 60; 40]%float)
  /\ (forall image s,
         let r := FreeFigureClassifier.classify_figure ext image s in
         dict_get (fst r) "confidence"
         = Some (VFloat (FreeFigureClassifier.confidence_score (snd r)))
         /\ le 0.3 (FreeFigureClassifier.confidence_score (snd r)) = true
         /\ le (FreeFigureClassifier.confidence_score (snd r)) 0.95 = true).
Proof.
  split.
  - intros image s r. subst r.
    unfold FigureClassifier.classify_figure.
    destruct (FigureClassifier._extract_features ext image) as [e | features];
      [left; reflexivity|].
    destruct (rule_based_classification_outcomes features image s)
      as [[e He] | [c [x [Hin He]]]]; rewrite He; [left; reflexivity|].
    right. exists x. cbn [fst snd FigureClassifier.confidence_score].
    unfold Catalog.rule_outcomes in Hin. cbn [In] in Hin.
    repeat (destruct Hin as [Hin | Hin];
            [ inversion Hin; subst c x;
              repeat split; [listed | vm_compute; listed] | ]).
    contradiction.
  - intros image s r. subst r.
    unfold FreeFigureClassifier.classify_figure.
    destruct (FreeFigureClassifier._get_image_description ext image)
      as [ | b | n | description | l | d ];
      [ repeat split; reflexivity ..
      |
      | repeat split; reflexivity
      | repeat split; reflexivity ].
    unfold FreeFigureClassifier._classify_from_description.
    destruct (FreeFigureClassifier._enhance_classification_with_analysis
                image
                (FreeFigureClassifier.keyword_scores (lower description)))
      as [| first rest] eqn:Henh.
    + unfold FreeFigureClassifier._classify_by_visual_analysis.
      destruct (int_truediv (shape1 (np_array image)) (shape0 (np_array image)))
        as [e | ar]; cbn [bind]; [cbn; repeat split; reflexivity|].
      destruct (ndim3 (np_array image)).
      * destruct (int_truediv _ _) as [e | cd]; cbn [bind];
          [cbn; repeat split; reflexivity|].
        repeat case_cmp; cbn; repeat split; reflexivity.
      * cbn; repeat split; reflexivity.
    + pose proof (enhance_range image _
                    (keyword_scores_range (lower description))) as Hrange.
      rewrite Henh in Hrange.
      destruct (max_item_spec rest first) as [Hin _].
      rewrite Forall_forall in Hrange. specialize (Hrange _ Hin).
      destruct (keyword_confidence_range _ Hrange) as [H1 [_ H3]].
      cbn [fst snd dict_get_default dict_get String.eqb Ascii.eqb Bool.eqb
           dict_set FreeFigureClassifier.confidence_score].
      repeat split; assumption.
Qed.

(** *** The visual-only fallback *)

(** C5 (as the code has it). When no keyword of any category occurs in an
    ASCII caption, the caption-keyword classifier falls back to the visual
    strategy.  An array with no row, and an array with a channel axis and
    no column, give unknown 0.3.  Otherwise, for an array with a channel
    axis: colour diversity > 0.1 gives photograph 0.6, else aspect ratio
    > 2 gives timeline 0.5, else aspect ratio in [0.8, 1.2] gives
    chart_other 0.5, else diagram_other 0.4; and a 2-D (single-channel)
    array with a row gives diagram_other 0.4 whatever its aspect ratio,
    were it without column.  The category is always a key of the keyword
    table. *)
Theorem unmatched_caption_visual_fallback :
  forall caption image s,
    isascii caption = true ->
    FreeFigureClassifier.keyword_scores (lower caption) = [] ->
    exists result c x,
      FreeFigureClassifier._classify_from_description (JStr caption) image s
      = (inr result, {| FreeFigureClassifier.confidence_score := x |})
      /\ dict_get result "classification" = Some (VStr c)
      /\ dict_get result "confidence" = Some (VFloat x)
      /\ In c Catalog.free_categories
      /\ (c, x) = VisualFallback.outcome image
      /\ (shape0 (np_array image) = 0%Z
          \/ (ndim3 (np_array image) = true
              /\ shape1 (np_array image) = 0%Z) ->
          (c, x) = ("unknown", 0.3%float))
      /\ (shape0 (np_array image) <> 0%Z ->
          ndim3 (np_array image) = false ->
          (c, x) = ("diagram_other", 0.4%float))
      /\ (shape0 (np_array image) <> 0%Z ->
          shape1 (np_array image) <> 0%Z ->
          ndim3 (np_array image) = true ->
          (c, x)
          = (if gt (Z2F (unique_count (pixel_rows (np_array image)))
                    / Z2F (shape0 (np_array image) * shape1 (np_array image)))
                   0.1
             then ("photograph", 0.6)
             else if gt (Z2F (shape1 (np_array image))
                         / Z2F (shape0 (np_array image))) 2
             then ("timeline", 0.5)
             else if le 0.8 (Z2F (shape1 (np_array image))
                             / Z2F (shape0 (np_array image)))
                     && le (Z2F (shape1 (np_array image))
                            / Z2F (shape0 (np_array image))) 1.2
             then ("chart_other", 0.5)
             else ("diagram_other", 0.4))%float).
Proof.
  intros caption image s _ Hscores.
  assert (Hmain :
    exists result,
      FreeFigureClassifier._classify_from_description (JStr caption) image s
      = (inr result,
         {| FreeFigureClassifier.confidence_score :=
              snd (VisualFallback.outcome image) |})
      /\ dict_get result "classification"
         = Some (VStr (fst (VisualFallback.outcome image)))
      /\ dict_get result "confidence"
         = Some (VFloat (snd (VisualFallback.outcome image)))
      /\ In (fst (VisualFallback.outcome image)) Catalog.free_categories).
  { unfold FreeFigureClassifier._classify_from_description.
    rewrite Hscores, enhance_no_scores.
    unfold FreeFigureClassifier._classify_by_visual_analysis,
      VisualFallback.outcome, int_truediv.
    set (a := np_array image).
    destruct (Z.eqb_spec (shape0 a) 0) as [Hh | Hh].
    { cbn. eexists. repeat split; try reflexivity.
      unfold Catalog.free_categories. cbn. listed. }
    cbn [bind ret].
    destruct (ndim3 a).
    - destruct (Z.eqb_spec (shape1 a) 0) as [Hw | Hw].
      + rewrite Hw, Z.mul_0_r. cbn. eexists. repeat split; try reflexivity.
        unfold Catalog.free_categories. cbn. listed.
      + destruct (Z.eqb_spec (shape0 a * shape1 a) 0) as [Hz | Hz];
          [apply Z.mul_eq_0 in Hz; tauto|].
        cbn [bind ret].
        repeat case_cmp; cbn; eexists; repeat split; try reflexivity;
          unfold Catalog.free_categories; cbn; listed.
    - cbn. eexists. repeat split; try reflexivity.
      unfold Catalog.free_categories. cbn. listed. }
  destruct Hmain as [result [Hres [Hc [Hx Hin]]]].
  exists result, (fst (VisualFallback.outcome image)),
    (snd (VisualFallback.outcome image)).
  split; [exact Hres | split; [exact Hc | split; [exact Hx |]]].
  split; [exact Hin |].
  split; [destruct (VisualFallback.outcome image); reflexivity |].
  rewrite <- surjective_pairing.
  unfold VisualFallback.outcome. cbv zeta.
  split; [| split].
  - intros [Hh | [Hnd Hw]].
    + rewrite Hh. reflexivity.
    + rewrite Hnd, Hw.
      destruct (shape0 (np_array image) =? 0)%Z; reflexivity.
  - intros Hh Hnd.
    rewrite (proj2 (Z.eqb_neq _ _) Hh), Hnd. reflexivity.
  - intros Hh Hw Hnd.
    rewrite (proj2 (Z.eqb_neq _ _) Hh), (proj2 (Z.eqb_neq _ _) Hw), Hnd.
    reflexivity.
Qed.

(** *** Lists *)

Lemma Forall_firstn_keep :
  forall (A : Type) (P : A -> Prop) n (l : list A),
    Forall P l -> Forall P (firstn n l).
Proof.
  intros A P n l H. revert n.
  induction H as [| x l Hx _ IH]; intros [| n]; cbn [firstn];
    constructor; auto.
Qed.

Lemma Forall_skipn_keep :
  forall (A : Type) (P : A -> Prop) n (l : list A),
    Forall P l -> Forall P (skipn n l).
Proof.
  intros A P n l H. revert n.
  induction H as [| x l Hx Hl IH]; intros [| n]; cbn [skipn];
    try constructor; auto.
Qed.

(** *** Uniform images: arithmetic of the pixel count *)







(** *** The symmetry score *)

(** The symmetry score is never NaN: a NaN correlation is mapped to 0. *)
Lemma calculate_symmetry_not_nan :
  forall gray axis,
    PrimFloat.is_nan (FigureClassifier._calculate_symmetry ext gray axis)
    = false.
Proof.
  intros gray axis. unfold FigureClassifier._calculate_symmetry.
  set (corr := if (axis =? 0)%Z then _ else _).
  destruct (PrimFloat.is_nan corr) eqn:Hnan.
  - reflexivity.
  - destruct (gt corr 0); [exact Hnan | reflexivity].
Qed.

(** *** Feature extraction on an image with pixels *)






(** *** Uniform images *)









(** *** Uniform images: classification *)

(** *** One-pixel images: classification *)




End Properties.

(** * The statements on concrete inputs *)

Section OnInputs.
Import Py Np Ext Inputs.

(** Features satisfying rules 1 and 2 are classified by rule 1. *)
Lemma rule_priority_on_pie_and_bars :
  gt (FigureClassifier.circle_ratio pie_and_bars) 0.3 = true
  /\ gt (FigureClassifier.rectangle_ratio pie_and_bars) 0.4
     && lt (FigureClassifier.text_ratio pie_and_bars) 0.3 = true
  /\ FigureClassifier._rule_based_classification
       (uniform_extern service_down) pie_and_bars white_pixel_rgb
       fresh_rule_based
     = (inr "pie_chart", {| FigureClassifier.confidence_score := 0.8 |}).
Proof.
  split; [reflexivity | split; [reflexivity |]].
  exact (proj2 (rule_based_classification_is_decision_list
                  (uniform_extern service_down) pie_and_bars white_pixel_rgb
                  fresh_rule_based)
               eq_refl eq_refl).
Defined.

(** With the service down, a white pixel is described locally. *)
Lemma local_caption_when_service_is_down :
  FreeFigureClassifier._get_image_description
    (uniform_extern service_down) white_pixel_rgb
  = JStr "colorful image bright".
Proof.
  destruct (unavailable_service_gives_local_caption
              (uniform_extern service_down) white_pixel_rgb []
              eq_refl I) as [H _].
  exact H.
Defined.


(** The bar-chart caption on a greyscale strip, where no bonus applies. *)
Lemma bar_chart_caption_on_grey_strip :
  exists result,
    FreeFigureClassifier._classify_from_description
      (JStr "A bar chart comparing sales") grey_strip fresh_free
    = (inr result, {| FreeFigureClassifier.confidence_score := 0.95 |})
    /\ FreeFigureClassifier.max_item ("bar_chart", 9%Z) [("chart_other", 5%Z)]
       = ("bar_chart", 9%Z)
    /\ dict_get result "classification" = Some (VStr "bar_chart")
    /\ dict_get result "confidence" = Some (VFloat 0.95).
Proof.
  exact (proj2 (proj2 (proj2 (proj2
           caption_keyword_scoring)))
           grey_strip fresh_free eq_refl).
Defined.

(** An unmatched caption on a white colour pixel: photograph, 0.6. *)
Lemma unmatched_caption_on_white_pixel :
  exists result,
    FreeFigureClassifier._classify_from_description
      (JStr "xyz unintelligible") white_pixel_rgb fresh_free
    = (inr result, {| FreeFigureClassifier.confidence_score := 0.6 |})
    /\ dict_get result "classification" = Some (VStr "photograph")
    /\ dict_get result "confidence" = Some (VFloat 0.6).
Proof.
  destruct (unmatched_caption_visual_fallback
              "xyz unintelligible" white_pixel_rgb fresh_free
              eq_refl eq_refl)
    as [result [c [x [Hres [Hc [Hx [_ [Hout _]]]]]]]].
  vm_compute in Hout. injection Hout as Hc' Hx'. subst c x.
  exists result. split; [exact Hres | split; [exact Hc | exact Hx]].
Defined.




End OnInputs.

(** * Where the code departs from the specification *)

Section Departures.
Import Py Np Ext Inputs.

(** The caption-keyword classifier returns the confidence 0.95 for the
    bar-chart caption: the internal value, not that value scaled by 100
    and rounded, which is 95. *)
Lemma caption_confidence_is_not_scaled :
  let r := FreeFigureClassifier.classify_figure
             (uniform_extern (service_says (JStr "A bar chart comparing sales")))
             grey_strip fresh_free in
  dict_get (fst r) "confidence" = Some (VFloat 0.95)
  /\ py_round1 (FreeFigureClassifier.confidence_score (snd r) * 100) = 95%float
  /\ dict_get (fst r) "confidence"
     <> Some (VFloat
                (py_round1 (FreeFigureClassifier.confidence_score (snd r) * 100))).
Proof.
  cbv zeta. split; [vm_compute; reflexivity | split; [vm_compute; reflexivity |]].
  intros H.
  apply (f_equal (fun o => match o with
                           | Some (VFloat x) => PrimFloat.eqb x 95
                           | _ => false
                           end)) in H.
  vm_compute in H. discriminate H.
Qed.

(** On an image with no row, extraction raises and the degraded result
    carries the description "Grayscale content, likely diagram or text",
    not "likely diagram or text". *)
Lemma degraded_description_is_not_the_short_text :
  FigureClassifier._extract_features (uniform_extern service_down) empty_grey
  = inl "division by zero"
  /\ dict_get
       (fst (FigureClassifier.classify_figure (uniform_extern service_down)
               empty_grey fresh_rule_based)) "description"
     = Some (VStr "Grayscale content, likely diagram or text")
  /\ dict_get
       (fst (FigureClassifier.classify_figure (uniform_extern service_down)
               empty_grey fresh_rule_based)) "description"
     <> Some (VStr "likely diagram or text").
Proof.
  split; [reflexivity | split; [reflexivity |]].
  intros H. vm_compute in H. discriminate H.
Qed.

(** A greyscale strip three times as wide as it is high, with an unmatched
    caption: no keyword scores, the aspect ratio exceeds 2, and yet the
    category is diagram_other with confidence 0.4, not timeline. *)
Lemma wide_grey_strip_is_not_a_timeline :
  let r := FreeFigureClassifier.classify_figure
             (uniform_extern (service_says (JStr "xyz unintelligible")))
             grey_strip fresh_free in
  FreeFigureClassifier.keyword_scores (lower "xyz unintelligible") = []
  /\ int_truediv (shape1 (np_array grey_strip)) (shape0 (np_array grey_strip))
     = inr 3%float
  /\ gt 3 2 = true
  /\ dict_get (fst r) "classification" = Some (VStr "diagram_other")
  /\ dict_get (fst r) "confidence" = Some (VFloat 0.4)
  /\ dict_get (fst r) "classification" <> Some (VStr "timeline").
Proof.
  cbv zeta. repeat (split; [vm_compute; reflexivity |]).
  intros H. vm_compute in H. discriminate H.
Qed.

(** Both strategies produce pie_chart, and render it differently. *)
Lemma pie_chart_is_rendered_differently :
  fst (FigureClassifier._rule_based_classification
         (uniform_extern service_down) pie_and_bars white_pixel_rgb
         fresh_rule_based)
  = inr "pie_chart"
  /\ dict_get
       (fst (FreeFigureClassifier.classify_figure
               (uniform_extern (service_says (JStr "a pie chart")))
               grey_strip fresh_free)) "classification"
     = Some (VStr "pie_chart")
  /\ dict_get
       (fst (FreeFigureClassifier.classify_figure
               (uniform_extern (service_says (JStr "a pie chart")))
               grey_strip fresh_free)) "type"
     = Some (VStr "🥧 Pie Chart")
  /\ FigureClassifier._map_to_label "pie_chart" = "🟢 Pie Chart"
  /\ FigureClassifier._map_to_label "pie_chart"
     <> FreeFigureClassifier.type_of "pie_chart".
Proof.
  repeat (split; [vm_compute; reflexivity |]).
  intros H. vm_compute in H. discriminate H.
Qed.


End Departures.

(** * Further properties of the three classifiers *)

Section Further.
Import Py Np Ext.
Variable ext : Extern.

(** Case analysis on the float comparisons a goal branches on. *)
Ltac case_band :=
  match goal with
  | |- context [if gt ?a ?b then _ else _] => destruct (gt a b)
  | |- context [if lt ?a ?b then _ else _] => destruct (lt a b)
  | |- context [if le ?a ?b && le ?c ?d then _ else _] =>
      destruct (le a b && le c d)
  end.

(** *** Feature extraction on degenerate arrays *)

Lemma truediv_by_zero : forall a, exists e, truediv a (PyInt 0) = inl e.
Proof. intros [n | x]; eexists; reflexivity. Qed.

Lemma extract_features_error_result :
  forall image s e,
    FigureClassifier._extract_features ext image = inl e ->
    FigureClassifier.classify_figure ext image s
    = (FigureClassifier.error_result e, s).
Proof.
  intros image s e He. unfold FigureClassifier.classify_figure.
  rewrite He. reflexivity.
Qed.

Lemma estimate_text_ratio_without_pixels :
  forall gray,
    (shape0 gray * shape1 gray = 0)%Z ->
    exists e, FigureClassifier._estimate_text_ratio ext gray = inl e.
Proof.
  intros gray Hpix. unfold FigureClassifier._estimate_text_ratio.
  destruct (morphologyEx_close3 ext gray) as [e | processed]; cbn [bind];
    [eexists; reflexivity |].
  destruct (findContours ext processed) as [e | contours]; cbn [bind];
    [eexists; reflexivity |].
  rewrite Hpix. apply truediv_by_zero.
Qed.

(** X1. An image whose grey-level array (the array itself, or the result
    of the grey conversion of a colour array) has no pixel, no row or rows
    of width 0, never yields a feature vector, whatever the third-party
    code does: the aspect ratio, the colour diversity or the text ratio
    divides by zero, or an earlier step raises, and [classify_figure]
    returns the degraded result. *)
Theorem pixel_free_image_is_degraded :
  forall image s,
    (forall gray,
        (if ndim3 (np_array image)
         then cvtColor ext (np_array image) COLOR_RGB2GRAY
         else ret (np_array image)) = inr gray ->
        (shape0 gray * shape1 gray = 0)%Z) ->
    exists e,
      FigureClassifier._extract_features ext image = inl e
      /\ FigureClassifier.classify_figure ext image s
         = ([ ("type", VStr "📐 Other Diagram");
              ("confidence", VFloat 30);
              ("description", VStr "Grayscale content, likely diagram or text");
              ("reasoning", VStr ("Error during classification: " ++ e)) ],
            s).
Proof.
  intros image s Hpix.
  assert (Hex : exists e, FigureClassifier._extract_features ext image = inl e).
  { unfold FigureClassifier._extract_features. cbv zeta.
    destruct (ndim3 (np_array image)) eqn:Hnd.
    - destruct (cvtColor ext (np_array image) COLOR_RGB2GRAY) as [e | gray];
        cbn [bind]; [eexists; reflexivity |].
      specialize (Hpix gray eq_refl).
      destruct (unpack_shape2 gray) as [e | [height width]] eqn:Hshape;
        cbn [bind]; [eexists; reflexivity |].
      unfold unpack_shape2 in Hshape.
      destruct (ndim3 gray); [discriminate Hshape |].
      injection Hshape as Hh Hw. subst height width.
      destruct (int_truediv (shape1 gray) (shape0 gray)) as [e | ar];
        cbn [bind]; [eexists; reflexivity |].
      destruct (Canny ext gray 50 150) as [e | edges]; cbn [bind];
        [eexists; reflexivity |].
      unfold int_truediv. rewrite Hpix. cbn [Z.eqb bind raise].
      eexists; reflexivity.
    - specialize (Hpix (np_array image) eq_refl).
      cbn [bind ret].
      unfold unpack_shape2. rewrite Hnd. cbn [bind ret].
      destruct (int_truediv _ _) as [e | ar]; cbn [bind];
        [eexists; reflexivity |].
      destruct (Canny ext _ _ _) as [e | edges]; cbn [bind];
        [eexists; reflexivity |].
      cbn [ret bind].
      destruct (estimate_text_ratio_without_pixels (np_array image) Hpix)
        as [e He].
      rewrite He. eexists; reflexivity. }
  destruct Hex as [e He]. exists e. split; [exact He |].
  apply extract_features_error_result, He.
Qed.

(** X2. A colour array whose number of values is not a multiple of three
    (a four-channel image of one pixel, say) never yields a feature
    vector: [reshape(-1, 3)] in [_count_dominant_colors] stands outside
    the [try] of that method, so its failure reaches [classify_figure],
    which returns the degraded result. *)
Theorem values_not_in_triples_is_degraded :
  forall image s,
    ndim3 (np_array image) = true ->
    Nat.modulo (List.length (flatten (np_array image))) 3 <> 0%nat ->
    exists e,
      FigureClassifier._extract_features ext image = inl e
      /\ FigureClassifier.classify_figure ext image s
         = ([ ("type", VStr "📐 Other Diagram");
              ("confidence", VFloat 30);
              ("description", VStr "Grayscale content, likely diagram or text");
              ("reasoning", VStr ("Error during classification: " ++ e)) ],
            s).
Proof.
  intros image s Hnd Hmod.
  assert (Hex : exists e, FigureClassifier._extract_features ext image = inl e).
  { unfold FigureClassifier._extract_features. cbv zeta.
    rewrite Hnd.
    destruct (cvtColor ext (np_array image) COLOR_RGB2GRAY) as [e | gray];
      cbn [bind]; [eexists; reflexivity |].
    destruct (unpack_shape2 gray) as [e | [height width]]; cbn [bind];
      [eexists; reflexivity |].
    destruct (int_truediv width height) as [e | ar]; cbn [bind];
      [eexists; reflexivity |].
    destruct (Canny ext gray 50 150) as [e | edges]; cbn [bind];
      [eexists; reflexivity |].
    destruct (int_truediv _ _) as [e | cd]; cbn [bind];
      [eexists; reflexivity |].
    destruct (cvtColor ext (np_array image) COLOR_RGB2HSV) as [e | hsv];
      cbn [bind]; [eexists; reflexivity |].
    unfold FigureClassifier._count_dominant_colors, reshape3.
    destruct (Nat.eqb_spec (Nat.modulo (List.length (flatten (np_array image))) 3) 0)
      as [Hz | _]; [contradiction |].
    cbn [bind raise]. eexists; reflexivity. }
  destruct Hex as [e He]. exists e. split; [exact He |].
  apply extract_features_error_result, He.
Qed.

(** *** The degraded result as a signal *)

Lemma float_value_differs :
  forall x y,
    PrimFloat.eqb x y = false -> PrimFloat.eqb y y = true ->
    Some (VFloat x) <> Some (VFloat y).
Proof.
  intros x y Hxy Hyy H. injection H as H. subst y. congruence.
Qed.

(** X3. The confidence at the boundary of the rule-based classifier is 30
    exactly when feature extraction or rule evaluation raised: a caller
    can take the value 30 as the mark of the degraded result, no rule
    result carries it. *)
Theorem confidence_30_marks_the_error_path :
  forall image s,
    dict_get (fst (FigureClassifier.classify_figure ext image s)) "confidence"
    = Some (VFloat 30)
    <-> match FigureClassifier._extract_features ext image with
        | inl _ => True
        | inr features =>
            match fst (FigureClassifier._rule_based_classification
                         ext features image s) with
            | inl _ => True
            | inr _ => False
            end
        end.
Proof.
  intros image s. unfold FigureClassifier.classify_figure.
  destruct (FigureClassifier._extract_features ext image) as [e | features];
    [split; [trivial | reflexivity] |].
  destruct (rule_based_classification_outcomes ext features image s)
    as [[e He] | [c [x [Hin He]]]]; rewrite He; cbn [fst snd].
  - split; [trivial | reflexivity].
  - split; [| intros []].
    cbn [dict_get String.eqb Ascii.eqb Bool.eqb FigureClassifier.confidence_score].
    unfold Catalog.rule_outcomes in Hin. cbn [In] in Hin.
    intros H. revert H.
    repeat (destruct Hin as [Hin | Hin];
            [ inversion Hin; subst c x;
              apply float_value_differs; vm_compute; reflexivity | ]).
    contradiction.
Qed.

(** X16. The attribute [confidence_score] is stale after a degraded
    result: when the returned confidence is 30, the attribute is the one
    of before the call if feature extraction raised, and the 0.5 that rule
    evaluation starts from if that raised; it is not set to match the 30
    of the result. *)
Theorem degraded_result_leaves_a_stale_attribute :
  forall image s,
    dict_get (fst (FigureClassifier.classify_figure ext image s)) "confidence"
    = Some (VFloat 30) ->
    match FigureClassifier._extract_features ext image with
    | inl _ => snd (FigureClassifier.classify_figure ext image s) = s
    | inr _ =>
        FigureClassifier.confidence_score
          (snd (FigureClassifier.classify_figure ext image s)) = 0.5%float
    end.
Proof.
  intros image s. unfold FigureClassifier.classify_figure.
  destruct (FigureClassifier._extract_features ext image) as [e | features];
    [reflexivity |].
  destruct (rule_based_classification_outcomes ext features image s)
    as [[e He] | [c [x [Hin He]]]]; rewrite He; cbn [fst snd].
  - reflexivity.
  - cbn [dict_get String.eqb Ascii.eqb Bool.eqb FigureClassifier.confidence_score].
    unfold Catalog.rule_outcomes in Hin. cbn [In] in Hin.
    intros H. exfalso. revert H.
    repeat (destruct Hin as [Hin | Hin];
            [ inversion Hin; subst c x;
              apply float_value_differs; vm_compute; reflexivity | ]).
    contradiction.
Qed.

(** *** Categories without an entry *)

(** Membership of a closed element in a closed list. *)
Ltac member := simpl In; repeat (first [left; reflexivity | right]).

(** X4. A category that has no entry in the two tables of the rule-based
    classifier is rendered by their defaults: the label "📐 Other Diagram"
    and the description "Grayscale content, likely diagram or text". *)
Theorem unlisted_category_gets_the_defaults :
  forall category,
    ~ In category
        [ "bar_chart"; "line_graph"; "pie_chart"; "timeline"; "photograph";
          "table"; "scatter_plot"; "flowchart"; "scientific_diagram"; "map";
          "diagram" ] ->
    FigureClassifier._map_to_label category = "📐 Other Diagram"
    /\ FigureClassifier._get_brief_description category
       = "Grayscale content, likely diagram or text".
Proof.
  intros category Hnot.
  unfold FigureClassifier._map_to_label,
    FigureClassifier._get_brief_description, dict_get_default.
  cbv zeta. cbn [dict_get].
  repeat match goal with
         | |- context [String.eqb category ?k] =>
             rewrite (proj2 (String.eqb_neq category k))
               by (intros Heq; apply Hnot; rewrite Heq; member)
         end.
  split; reflexivity.
Qed.

(** *** The symmetry score *)

Lemma ltb_leb :
  forall x y, PrimFloat.ltb x y = true -> PrimFloat.leb x y = true.
Proof.
  intros x y. rewrite ltb_spec, leb_spec.
  unfold SFltb, SFleb. destruct (SFcompare _ _) as [[ | | ] |]; congruence.
Qed.

Lemma lt_right_not_nan :
  forall x y, PrimFloat.ltb x y = true -> PrimFloat.is_nan y = false.
Proof.
  intros x y. unfold PrimFloat.is_nan. rewrite ltb_spec, eqb_spec.
  unfold SFltb, SFeqb.
  destruct (Prim2SF x) as [sx | sx | | sx mx ex],
           (Prim2SF y) as [sy | sy | | sy my ey];
    cbn [SFcompare]; try discriminate; intros _;
    try reflexivity; try (destruct sy; reflexivity);
    destruct sy; rewrite Z.compare_refl, Pos.compare_cont_refl; reflexivity.
Qed.

(** X6. The symmetry score is never negative and never NaN: it is the
    correlation of the first half of the rows (or of the columns) with the
    second half mirrored and cut to the size of the first when that
    correlation is above zero, and 0 otherwise (a NaN, a zero or a
    negative correlation). *)
Theorem symmetry_is_never_negative :
  forall gray axis,
    let rows := rows2 gray in
    let h2 := (List.length rows / 2)%nat in
    let w2 := (nd_width gray / 2)%nat in
    let x :=
      if (axis =? 0)%Z then List.concat (firstn h2 rows)
      else List.concat (map (firstn w2) rows) in
    let y :=
      if (axis =? 0)%Z then List.concat (firstn h2 (rev (skipn h2 rows)))
      else List.concat (map (fun row => firstn w2 (rev (skipn w2 row))) rows)
    in
    le 0 (FigureClassifier._calculate_symmetry ext gray axis) = true
    /\ PrimFloat.is_nan (FigureClassifier._calculate_symmetry ext gray axis)
       = false
    /\ (gt (np_corrcoef ext x y) 0 = true ->
        FigureClassifier._calculate_symmetry ext gray axis
        = np_corrcoef ext x y)
    /\ (gt (np_corrcoef ext x y) 0 = false ->
        FigureClassifier._calculate_symmetry ext gray axis = 0%float).
Proof.
  intros gray axis rows h2 w2 x y.
  split; [| split; [apply calculate_symmetry_not_nan |]].
  - unfold FigureClassifier._calculate_symmetry.
    set (corr := if (axis =? 0)%Z then _ else _).
    destruct (PrimFloat.is_nan corr); [reflexivity |].
    destruct (gt corr 0) eqn:Hpos; [| reflexivity].
    apply ltb_leb. exact Hpos.
  - assert (Hscore :
      FigureClassifier._calculate_symmetry ext gray axis
      = if PrimFloat.is_nan (np_corrcoef ext x y) then 0%float
        else if gt (np_corrcoef ext x y) 0 then np_corrcoef ext x y
             else 0%float).
    { unfold FigureClassifier._calculate_symmetry. cbv zeta.
      subst x y. fold rows. fold h2. fold w2.
      assert (Hh : (h2 <= List.length rows - h2)%nat).
      { subst h2. pose proof (Nat.Div0.mul_div_le (List.length rows) 2). lia. }
      assert (Hw : (w2 <= nd_width gray - w2)%nat).
      { subst w2. pose proof (Nat.Div0.mul_div_le (nd_width gray) 2). lia. }
      destruct (axis =? 0)%Z.
      - rewrite length_firstn, length_rev, length_skipn.
        replace (Nat.min (Nat.min h2 (List.length rows))
                         (List.length rows - h2))
          with h2 by lia.
        rewrite firstn_firstn, Nat.min_id. reflexivity.
      - replace (Nat.min (Nat.min w2 (nd_width gray)) (nd_width gray - w2))
          with w2 by lia.
        rewrite !map_map.
        rewrite (map_ext (fun row => firstn w2 (firstn w2 row)) (firstn w2))
          by (intros row; rewrite firstn_firstn, Nat.min_id; reflexivity).
        reflexivity. }
    rewrite Hscore. split; intros Hpos.
    + rewrite (lt_right_not_nan _ _ Hpos), Hpos. reflexivity.
    + rewrite Hpos. destruct (PrimFloat.is_nan _); reflexivity.
Qed.

Lemma length_concat_uniform :
  forall (A : Type) k (l : list (list A)),
    Forall (fun r => List.length r = k) l ->
    List.length (List.concat l) = (List.length l * k)%nat.
Proof.
  intros A k l H. induction H as [| r l Hr _ IH]; cbn [List.concat List.length].
  - reflexivity.
  - rewrite length_app, Hr, IH. lia.
Qed.

(** X5. On a rectangular grey-level array the two samples handed to
    [np.corrcoef] have the same size: (h // 2) * w values for the
    horizontal axis and h * (w // 2) for the vertical one, the middle row
    or column of an odd size being left out.  So the score depends on the
    correlation only through its values on such pairs. *)
Theorem symmetry_compares_equal_halves :
  forall (ext' : Extern) gray axis,
    Forall (fun row => List.length row = nd_width gray) (rows2 gray) ->
    (forall x y,
        List.length x
        = (if (axis =? 0)%Z
           then (List.length (rows2 gray) / 2) * nd_width gray
           else List.length (rows2 gray) * (nd_width gray / 2))%nat ->
        List.length y = List.length x ->
        np_corrcoef ext x y = np_corrcoef ext' x y) ->
    FigureClassifier._calculate_symmetry ext gray axis
    = FigureClassifier._calculate_symmetry ext' gray axis.
Proof.
  intros ext' gray axis Hrect Hsame.
  unfold FigureClassifier._calculate_symmetry.
  set (rows := rows2 gray) in *. set (w := nd_width gray) in *.
  assert (Hhalf : (List.length rows / 2 <= List.length rows)%nat)
    by (apply Nat.Div0.div_le_upper_bound; lia).
  assert (Hwhalf : (w / 2 <= w)%nat)
    by (apply Nat.Div0.div_le_upper_bound; lia).
  assert (Hwrest : (w / 2 <= w - w / 2)%nat).
  { pose proof (Nat.Div0.mul_div_le w 2). lia. }
  destruct (axis =? 0)%Z.
  - rewrite length_firstn, length_rev, length_skipn.
    assert (Hrest : (List.length rows / 2
                     <= List.length rows - List.length rows / 2)%nat).
    { pose proof (Nat.Div0.mul_div_le (List.length rows) 2). lia. }
    replace (Nat.min (Nat.min (List.length rows / 2) (List.length rows))
                     (List.length rows - List.length rows / 2))
      with (List.length rows / 2)%nat by lia.
    rewrite Hsame; [reflexivity | |].
    + rewrite (length_concat_uniform Z w).
      * rewrite !length_firstn. f_equal. lia.
      * apply Forall_firstn_keep, Forall_firstn_keep, Hrect.
    + rewrite !(length_concat_uniform Z w).
      * rewrite !length_firstn, length_rev, length_skipn. f_equal. lia.
      * apply Forall_firstn_keep, Forall_firstn_keep, Hrect.
      * apply Forall_firstn_keep, Forall_rev, Forall_skipn_keep, Hrect.
  - replace (Nat.min (Nat.min (w / 2) w) (w - w / 2)) with (w / 2)%nat by lia.
    assert (Hleft :
      Forall (fun r => List.length r = (w / 2)%nat)
             (map (firstn (w / 2)) (map (firstn (w / 2)) rows))).
    { rewrite !Forall_map. eapply Forall_impl; [| exact Hrect].
      intros row Hrow. cbn beta in *. rewrite !length_firstn. lia. }
    assert (Hright :
      Forall (fun r => List.length r = (w / 2)%nat)
             (map (firstn (w / 2))
                  (map (fun row => rev (skipn (w / 2) row)) rows))).
    { rewrite !Forall_map. eapply Forall_impl; [| exact Hrect].
      intros row Hrow. cbn beta in *.
      rewrite length_firstn, length_rev, length_skipn. lia. }
    rewrite Hsame; [reflexivity | |].
    + rewrite (length_concat_uniform Z _ _ Hleft), !length_map. reflexivity.
    + rewrite (length_concat_uniform Z _ _ Hleft),
        (length_concat_uniform Z _ _ Hright), !length_map. reflexivity.
Qed.

(** *** Greyscale images under the rule-based policy *)

Lemma extract_features_of_grey_array :
  forall image fv,
    ndim3 (np_array image) = false ->
    FigureClassifier._extract_features ext image = inr fv ->
    FigureClassifier.color_diversity fv = 0%float.
Proof.
  intros image fv Hnd H.
  unfold FigureClassifier._extract_features in H. cbv zeta in H.
  rewrite Hnd in H. cbn [bind ret] in H.
  destruct (unpack_shape2 (np_array image)) as [e | [height width]];
    cbn [bind] in H; [discriminate |].
  destruct (int_truediv width height) as [e | ar]; cbn [bind] in H;
    [discriminate |].
  destruct (Canny ext (np_array image) 50 150) as [e | edges];
    cbn [bind] in H; [discriminate |].
  destruct (FigureClassifier._estimate_text_ratio ext (np_array image))
    as [e | text]; cbn [bind] in H; [discriminate |].
  destruct (FigureClassifier._detect_lines ext (np_array image))
    as [e | line]; cbn [bind] in H; [discriminate |].
  destruct (FigureClassifier._detect_circles ext (np_array image))
    as [e | circle]; cbn [bind] in H; [discriminate |].
  destruct (FigureClassifier._detect_rectangles ext (np_array image))
    as [e | rect]; cbn [bind] in H; [discriminate |].
  injection H as H. subst fv. reflexivity.
Qed.

(** X7. A greyscale (2-D) image is never classified photograph or map by
    the rule-based classifier: its colour diversity is set to 0, and both
    rules ask for a positive colour diversity. *)
Theorem greyscale_is_never_photograph_or_map :
  forall image s,
    ndim3 (np_array image) = false ->
    dict_get (fst (FigureClassifier.classify_figure ext image s)) "type"
    <> Some (VStr "📷 Photograph")
    /\ dict_get (fst (FigureClassifier.classify_figure ext image s)) "type"
       <> Some (VStr "🗺️ Map").
Proof.
  intros image s Hnd. unfold FigureClassifier.classify_figure.
  destruct (FigureClassifier._extract_features ext image)
    as [e | features] eqn:Hfv.
  - split; intros H; vm_compute in H; discriminate H.
  - pose proof (extract_features_of_grey_array image features Hnd Hfv) as Hcd.
    unfold FigureClassifier._rule_based_classification,
      FigureClassifier._is_map_like.
    rewrite Hcd.
    change (gt 0 0.1) with false. change (gt 0 0.05) with false.
    rewrite andb_false_r. cbn [andb].
    repeat match goal with
           | |- context [if ?b then (_, _) else _] => destruct b
           end;
      try (split; intros H; vm_compute in H; discriminate H).
    all: destruct (FigureClassifier._is_scatter_plot ext features image)
           as [e | [|]];
      split; intros H; vm_compute in H; discriminate H.
Qed.

(** *** The visual bonuses *)

Lemma str_mem_In : forall s l, str_mem s l = true -> In s l.
Proof.
  intros s l H. unfold str_mem in H.
  apply existsb_exists in H. destruct H as [x [Hin Heq]].
  apply String.eqb_eq in Heq. subst x. exact Hin.
Qed.

Lemma dict_get_set :
  forall (V : Type) (d : dict V) k v k',
    dict_get (dict_set d k v) k'
    = if String.eqb k' k then Some v else dict_get d k'.
Proof.
  intros V d k v k'. induction d as [| [k0 v0] d IH]; cbn [dict_set dict_get].
  - reflexivity.
  - destruct (String.eqb_spec k k0) as [Hk | Hk]; cbn [dict_get].
    + subst k0. destruct (String.eqb k' k); reflexivity.
    + rewrite IH.
      destruct (String.eqb_spec k' k0) as [Hk' | Hk']; [| reflexivity].
      subst k0. rewrite (proj2 (String.eqb_neq k' k)); [reflexivity |].
      intros Heq. apply Hk. symmetry. exact Heq.
Qed.

Lemma dict_set_keys :
  forall (V : Type) (d : dict V) k v v0,
    dict_get d k = Some v0 -> dict_keys (dict_set d k v) = dict_keys d.
Proof.
  intros V d k v v0. unfold dict_keys.
  induction d as [| [k0 v1] d IH]; cbn [dict_set dict_get map fst].
  - discriminate.
  - destruct (String.eqb k k0); cbn [map fst]; [reflexivity |].
    intros H. rewrite (IH H). reflexivity.
Qed.

(** One round of bonuses keeps the categories and their order, and adds
    [n] to the listed ones. *)
Lemma add_bonus_keys :
  forall ts n (d : dict Z),
    dict_keys (FreeFigureClassifier.add_bonus ts n d) = dict_keys d.
Proof.
  unfold FreeFigureClassifier.add_bonus.
  induction ts as [| t ts IH]; intros n d; cbn [fold_left]; [reflexivity |].
  rewrite IH. destruct (dict_get d t) as [v |] eqn:Hget; [| reflexivity].
  apply (dict_set_keys Z d t _ v Hget).
Qed.

Lemma add_bonus_get :
  forall ts n (d : dict Z) k v,
    NoDup ts ->
    dict_get d k = Some v ->
    dict_get (FreeFigureClassifier.add_bonus ts n d) k
    = Some (if str_mem k ts then v + n else v)%Z.
Proof.
  unfold FreeFigureClassifier.add_bonus, str_mem.
  induction ts as [| t ts IH]; intros n d k v Hnd Hget;
    cbn [fold_left existsb]; [exact Hget |].
  inversion Hnd as [| t' ts' Hnotin Hnd']; subst t' ts'.
  destruct (String.eqb_spec k t) as [Hk | Hk]; cbn [orb].
  - subst t. rewrite Hget.
    rewrite (IH n _ k (v + n)%Z Hnd').
    + replace (existsb (String.eqb k) ts) with false; [reflexivity |].
      symmetry. apply not_true_is_false. intros Hex.
      apply existsb_exists in Hex. destruct Hex as [x [Hin Heq]].
      apply String.eqb_eq in Heq. subst x. contradiction.
    + rewrite dict_get_set, String.eqb_refl. reflexivity.
  - apply IH; [exact Hnd' |].
    destruct (dict_get d t) as [v0 |]; [| exact Hget].
    rewrite dict_get_set, (proj2 (String.eqb_neq k t) Hk). exact Hget.
Qed.

Lemma names_are_distinct :
  NoDup ["bar_chart"; "line_graph"; "scatter_plot"]
  /\ NoDup ["timeline"; "flowchart"]
  /\ NoDup ["photograph"; "infographic"; "map"]
  /\ NoDup ["bar_chart"; "line_graph"].
Proof.
  repeat split;
    repeat (constructor; [cbn [In]; intuition discriminate |]);
    constructor.
Qed.

Lemma bonus_round :
  forall (b : bool) ts n (d : dict Z) k v,
    NoDup ts ->
    dict_get d k = Some v ->
    dict_get (if b then FreeFigureClassifier.add_bonus ts n d else d) k
    = Some (v + (if b && str_mem k ts then n else 0))%Z.
Proof.
  intros b ts n d k v Hnd Hget. destruct b; cbn [andb].
  - rewrite (add_bonus_get ts n d k v Hnd Hget).
    f_equal. destruct (str_mem k ts); lia.
  - rewrite Hget, Z.add_0_r. reflexivity.
Qed.

Lemma enhancement_keeps_the_keys :
  forall image scores,
    dict_keys
      (FreeFigureClassifier._enhance_classification_with_analysis image scores)
    = dict_keys scores.
Proof.
  intros image scores.
  unfold FreeFigureClassifier._enhance_classification_with_analysis.
  destruct (int_truediv _ _) as [e | ar]; cbn [bind try_except];
    [reflexivity |].
  destruct (ndim3 (np_array image)).
  - destruct (int_truediv _ _) as [e | cd]; cbn [bind try_except];
      [reflexivity |].
    repeat case_band; cbn [try_except ret];
      repeat rewrite add_bonus_keys; reflexivity.
  - cbn [try_except ret]. repeat case_band;
      repeat rewrite add_bonus_keys; reflexivity.
Qed.

Lemma enhancement_adds_the_bonus :
  forall image scores k v,
    dict_get scores k = Some v ->
    dict_get
      (FreeFigureClassifier._enhance_classification_with_analysis image scores)
      k
    = Some (v + VisualBonus.bonus image k)%Z.
Proof.
  intros image scores k v Hget.
  destruct names_are_distinct as [N1 [N2 [N3 N4]]].
  unfold FreeFigureClassifier._enhance_classification_with_analysis,
    VisualBonus.bonus, int_truediv.
  set (a := np_array image).
  destruct (Z.eqb_spec (shape0 a) 0) as [Hh | Hh].
  { cbn [bind try_except raise]. rewrite Hget, Z.add_0_r. reflexivity. }
  cbn [bind ret].
  set (ar := (Z2F (shape1 a) / Z2F (shape0 a))%float).
  pose proof (bonus_round (le 0.8 ar && le ar 1.5) _ 5 scores k v N1 Hget)
    as H1.
  pose proof (bonus_round (gt ar 2) _ 8 _ k _ N2 H1) as H2.
  destruct (ndim3 a); cbn [andb].
  + destruct (Z.eqb_spec (shape0 a * shape1 a) 0) as [Hz | Hz].
    { cbn [bind try_except raise]. rewrite Hget, Z.add_0_r. reflexivity. }
    cbn [bind ret].
    set (cd := (Z2F (unique_count (pixel_rows a))
                / Z2F (shape0 a * shape1 a))%float).
    destruct (gt cd 0.1); [| destruct (lt cd 0.01)]; cbn [try_except ret].
    * rewrite (add_bonus_get _ 6 _ k _ N3 H2).
      f_equal. destruct (str_mem k ["photograph"; "infographic"; "map"]); lia.
    * rewrite (add_bonus_get _ 4 _ k _ N4 H2).
      f_equal. destruct (str_mem k ["bar_chart"; "line_graph"]); lia.
    * rewrite H2. f_equal. lia.
  + cbn [try_except ret]. rewrite H2. f_equal. lia.
Qed.

(** No category is listed in two bands that can hold together but
    bar_chart and line_graph: 5 + 4 points at most. *)
Lemma bonus_range :
  forall image k, (0 <= VisualBonus.bonus image k <= 9)%Z.
Proof.
  intros image k. unfold VisualBonus.bonus.
  destruct (str_mem k ["timeline"; "flowchart"]) eqn:H2;
    [| destruct (str_mem k ["photograph"; "infographic"; "map"]) eqn:H3].
  - apply str_mem_In in H2. destruct H2 as [Hk | [Hk | []]]; subst k;
      repeat match goal with
             | |- context [str_mem ?k ?l] =>
                 let v := eval vm_compute in (str_mem k l) in
                 change (str_mem k l) with v
             end;
      rewrite ?andb_false_r, ?andb_true_r;
      repeat match goal with
             | |- context [if ?b then _ else _] => destruct b
             end; lia.
  - apply str_mem_In in H3. destruct H3 as [Hk | [Hk | [Hk | []]]]; subst k;
      repeat match goal with
             | |- context [str_mem ?k ?l] =>
                 let v := eval vm_compute in (str_mem k l) in
                 change (str_mem k l) with v
             end;
      rewrite ?andb_false_r, ?andb_true_r;
      repeat match goal with
             | |- context [if ?b then _ else _] => destruct b
             end; lia.
  - rewrite ?andb_false_r.
    repeat match goal with
           | |- context [if ?b then _ else _] => destruct b
           end; lia.
Qed.

(** X8. The visual reweighting never adds, removes or reorders a category:
    it only adds to the score of a category that the keywords matched the
    bonus given by the aspect-ratio and colour-diversity bands, between 0
    and 9 points.  A category of keyword score zero can therefore never
    win through the image alone. *)
Theorem enhancement_adds_the_band_bonuses :
  forall image scores,
    dict_keys
      (FreeFigureClassifier._enhance_classification_with_analysis image scores)
    = dict_keys scores
    /\ (forall k v,
           dict_get scores k = Some v ->
           dict_get
             (FreeFigureClassifier._enhance_classification_with_analysis
                image scores) k
           = Some (v + VisualBonus.bonus image k)%Z)
    /\ (forall k, 0 <= VisualBonus.bonus image k <= 9)%Z.
Proof.
  intros image scores. split; [apply enhancement_keeps_the_keys | split].
  - apply enhancement_adds_the_bonus.
  - apply bonus_range.
Qed.

(** *** The winning category *)

(** X9. [max(items, key=score)] returns the first item of maximal score:
    every item before the winner has a strictly smaller score and no item
    after it has a larger one.  Ties go to the category that comes first
    in the keyword table. *)
Theorem winner_is_the_first_maximum :
  forall items best,
    exists before after,
      best :: items
      = (before ++ FreeFigureClassifier.max_item best items :: after)%list
      /\ Forall (fun x => (snd x
                           < snd (FreeFigureClassifier.max_item best items))%Z)
                before
      /\ Forall (fun x => (snd x
                           <= snd (FreeFigureClassifier.max_item best items))%Z)
                after.
Proof.
  induction items as [| y items IH]; intros best;
    cbn [FreeFigureClassifier.max_item].
  - exists [], []. repeat split; constructor.
  - destruct (max_item_spec items (if (snd best <? snd y)%Z then y else best))
      as [_ Hmax].
    destruct (IH (if (snd best <? snd y)%Z then y else best))
      as [before [after [Heq [Hbefore Hafter]]]].
    set (m := FreeFigureClassifier.max_item
                (if (snd best <? snd y)%Z then y else best) items) in *.
    destruct (Z.ltb_spec (snd best) (snd y)) as [Hlt | Hge].
    + exists (best :: before), after.
      split; [cbn [app]; rewrite <- Heq; reflexivity |].
      split; [| exact Hafter].
      constructor; [| exact Hbefore].
      pose proof (Hmax y (or_introl eq_refl)). lia.
    + destruct before as [| b before].
      * cbn [app] in Heq. injection Heq as Hm Hitems.
        exists [], (y :: items). rewrite <- Hm.
        split; [reflexivity |]. split; [constructor |].
        constructor; [exact Hge |].
        rewrite Hitems, Hm. exact Hafter.
      * cbn [app] in Heq. injection Heq as Hb Hitems. subst b.
        exists (best :: y :: before), after.
        split; [cbn [app]; rewrite Hitems; reflexivity |].
        split; [| exact Hafter].
        inversion Hbefore as [| b' l' Hbest Hrest]; subst b' l'.
        constructor; [exact Hbest |].
        constructor; [lia | exact Hrest].
Qed.

Lemma keys_of_scored_filter :
  forall (A V : Type) (p : string * V -> bool) (g : string * A -> V)
         (d : list (string * A)) k,
    In k (dict_keys (filter p (map (fun kv => (fst kv, g kv)) d))) ->
    In k (dict_keys d).
Proof.
  intros A V p g d k. unfold dict_keys.
  induction d as [| kv d IH]; cbn [filter map].
  - intros [].
  - destruct (p (fst kv, g kv)); cbn [map In fst]; tauto.
Qed.

Lemma keyword_scores_keys :
  forall desc_lower k,
    In k (dict_keys (FreeFigureClassifier.keyword_scores desc_lower)) ->
    In k Catalog.free_categories.
Proof.
  intros desc_lower k.
  exact (keys_of_scored_filter (list string) Z _
           (fun kv => FreeFigureClassifier.keyword_score (snd kv) desc_lower)
           FreeFigureClassifier.figure_categories k).
Qed.

Lemma emojis_cover_the_categories :
  Forall (fun c => dict_mem FreeFigureClassifier.figure_emojis c = true)
         Catalog.free_categories.
Proof. repeat constructor. Qed.

(** The category that wins the keyword path is a key of the table. *)
Lemma winner_is_a_category :
  forall image desc_lower first rest,
    FreeFigureClassifier._enhance_classification_with_analysis image
      (FreeFigureClassifier.keyword_scores desc_lower)
    = first :: rest ->
    In (fst (FreeFigureClassifier.max_item first rest))
       (dict_keys (FreeFigureClassifier.keyword_scores desc_lower)).
Proof.
  intros image desc_lower first rest Henh.
  destruct (max_item_spec rest first) as [Hin _].
  rewrite <- (enhancement_keeps_the_keys image _).
  rewrite Henh. unfold dict_keys. apply in_map. exact Hin.
Qed.

(** X10. On every path the caption-keyword classifier stores under
    [classification] a key of its keyword table, for which the glyph table
    has an entry (the glyph default is never used); and whenever the
    description is a string, [type] is the rendering of that very
    category. *)
Theorem classification_is_in_the_closed_enumeration :
  forall image s,
    exists c,
      dict_get (fst (FreeFigureClassifier.classify_figure ext image s))
        "classification" = Some (VStr c)
      /\ In c Catalog.free_categories
      /\ dict_mem FreeFigureClassifier.figure_emojis c = true
      /\ match FreeFigureClassifier._get_image_description ext image with
         | JStr _ =>
             dict_get (fst (FreeFigureClassifier.classify_figure ext image s))
               "type"
             = Some (VStr (FreeFigureClassifier.type_of c))
         | _ => True
         end.
Proof.
  intros image s.
  assert (Hcover : forall c, In c Catalog.free_categories ->
                             dict_mem FreeFigureClassifier.figure_emojis c = true).
  { apply Forall_forall. exact emojis_cover_the_categories. }
  assert (Hunknown : In "unknown" Catalog.free_categories)
    by (unfold Catalog.free_categories; cbn; member).
  unfold FreeFigureClassifier.classify_figure.
  destruct (FreeFigureClassifier._get_image_description ext image)
    as [ | b | n | description | l | d ].
  4: { unfold FreeFigureClassifier._classify_from_description.
       destruct (FreeFigureClassifier._enhance_classification_with_analysis
                   image
                   (FreeFigureClassifier.keyword_scores (lower description)))
         as [| first rest] eqn:Henh.
       - unfold FreeFigureClassifier._classify_by_visual_analysis.
         match goal with
         | |- context [match ?b with inl _ => _ | inr _ => _ end] =>
             destruct b as [e | [[classification confidence] ar]] eqn:Hbody
         end.
         + exists "unknown". repeat split; auto.
         + exists classification.
           assert (Hin : In classification Catalog.free_categories).
           { revert Hbody. unfold int_truediv.
             repeat (match goal with
                     | |- context [if ?b then _ else _] => destruct b
                     end; cbn [bind ret raise]);
               intros Hbody; try discriminate Hbody;
               injection Hbody as Hc _ _; subst classification;
               unfold Catalog.free_categories; cbn; member. }
           repeat split; auto.
       - pose proof (keyword_scores_keys _ _
                       (winner_is_a_category image _ first rest Henh)) as Hkey.
         exists (fst (FreeFigureClassifier.max_item first rest)).
         repeat split; auto. }
  all: exists "unknown"; repeat split; auto.
Qed.

(** *** The captioning service is unavailable *)

Lemma local_captions :
  forall image,
    In (FreeFigureClassifier._analyze_image_locally ext image)
       LocalCaption.captions.
Proof.
  intros image. unfold FreeFigureClassifier._analyze_image_locally.
  destruct (int_truediv (shape1 (np_array image)) (shape0 (np_array image)))
    as [e | aspect_ratio]; cbn [bind try_except];
    [apply str_mem_In; reflexivity |].
  destruct (ndim3 (np_array image)).
  - destruct (int_truediv _ _) as [e | color_diversity];
      cbn [bind try_except]; [apply str_mem_In; reflexivity |].
    destruct (np_mean_axis2 ext (np_array image)) as [e | gray];
      cbn [bind try_except ret]; [apply str_mem_In; reflexivity |].
    repeat case_band; apply str_mem_In; vm_compute; reflexivity.
  - cbn [bind try_except ret].
    repeat case_band; apply str_mem_In; vm_compute; reflexivity.
Qed.

Lemma local_caption_scores :
  Forall (fun c => In (FreeFigureClassifier.keyword_scores (lower c))
                      LocalCaption.score_tables)
         LocalCaption.captions.
Proof.
  unfold LocalCaption.captions, LocalCaption.score_tables.
  cbn [flat_map map app LocalCaption.aspect_words LocalCaption.colour_words
       LocalCaption.edge_words LocalCaption.light_words].
  repeat (constructor;
          [ vm_compute; repeat (first [left; reflexivity | right]) | ]).
  constructor.
Qed.

(** X11. The caption synthesized locally is one of 82 texts: at most one
    word for the aspect ratio, at most one for the colour diversity, one
    for the edge density, at most one for the brightness, in this order and
    separated by blanks; or "visual content" when the analysis fails.  The
    keywords find in it exactly one of four score tables: infographic 6;
    flowchart 7 and diagram_other 7; chart_other 5; photograph 5. *)
Theorem local_caption_vocabulary :
  forall image,
    In (FreeFigureClassifier._analyze_image_locally ext image)
       LocalCaption.captions
    /\ In (FreeFigureClassifier.keyword_scores
             (lower (FreeFigureClassifier._analyze_image_locally ext image)))
          LocalCaption.score_tables.
Proof.
  intros image. pose proof (local_captions image) as Hcap.
  split; [exact Hcap |].
  pose proof local_caption_scores as Hscores.
  rewrite Forall_forall in Hscores. exact (Hscores _ Hcap).
Qed.

Lemma description_when_unavailable :
  forall image,
    LocalCaption.service_unavailable ext image ->
    FreeFigureClassifier._get_image_description ext image
    = JStr (FreeFigureClassifier._analyze_image_locally ext image).
Proof.
  intros image. unfold LocalCaption.service_unavailable.
  unfold FreeFigureClassifier._get_image_description.
  destruct (save_png ext image) as [e | img_buffer]; cbn [bind];
    [reflexivity |].
  destruct (requests_post ext img_buffer) as [e | status_code body];
    [reflexivity |].
  intros Hpost.
  destruct (Z.eqb_spec status_code 200) as [Heq | Hne];
    [contradiction | reflexivity].
Qed.

Lemma classify_on_keyword_path :
  forall image s description first rest,
    FreeFigureClassifier._get_image_description ext image = JStr description ->
    FreeFigureClassifier._enhance_classification_with_analysis image
      (FreeFigureClassifier.keyword_scores (lower description))
    = first :: rest ->
    dict_get (fst (FreeFigureClassifier.classify_figure ext image s))
      "classification"
    = Some (VStr (fst (FreeFigureClassifier.max_item first rest)))
    /\ dict_get (fst (FreeFigureClassifier.classify_figure ext image s))
         "confidence"
       = Some (VFloat (CaptionSpec.confidence
                         (snd (FreeFigureClassifier.max_item first rest)))).
Proof.
  intros image s description first rest Hd Henh.
  unfold FreeFigureClassifier.classify_figure. rewrite Hd.
  unfold FreeFigureClassifier._classify_from_description. rewrite Henh.
  split; reflexivity.
Qed.

(** The enhanced table of a one-category table, and of the table of the
    caption "detailed diagram". *)
Lemma enhance_one_category :
  forall image k v,
    FreeFigureClassifier._enhance_classification_with_analysis image [(k, v)]
    = [(k, (v + VisualBonus.bonus image k)%Z)].
Proof.
  intros image k v.
  pose proof (enhancement_keeps_the_keys image [(k, v)]) as Hkeys.
  pose proof (enhancement_adds_the_bonus image [(k, v)] k v) as Hget.
  cbn [dict_get] in Hget. rewrite String.eqb_refl in Hget.
  specialize (Hget eq_refl).
  destruct (FreeFigureClassifier._enhance_classification_with_analysis
              image [(k, v)]) as [| [k1 v1] [| kv rest]];
    cbn [dict_keys map fst] in Hkeys; try discriminate Hkeys.
  injection Hkeys as Hk. subst k1.
  cbn [dict_get] in Hget. rewrite String.eqb_refl in Hget.
  injection Hget as Hv. subst v1. reflexivity.
Qed.

Lemma enhance_two_categories :
  forall image k1 v1 k2 v2,
    String.eqb k2 k1 = false ->
    FreeFigureClassifier._enhance_classification_with_analysis image
      [(k1, v1); (k2, v2)]
    = [ (k1, (v1 + VisualBonus.bonus image k1)%Z);
        (k2, (v2 + VisualBonus.bonus image k2)%Z) ].
Proof.
  intros image k1 v1 k2 v2 Hne.
  pose proof (enhancement_keeps_the_keys image [(k1, v1); (k2, v2)]) as Hkeys.
  pose proof (enhancement_adds_the_bonus image [(k1, v1); (k2, v2)] k1 v1)
    as Hget1.
  pose proof (enhancement_adds_the_bonus image [(k1, v1); (k2, v2)] k2 v2)
    as Hget2.
  cbn [dict_get] in Hget1, Hget2.
  rewrite String.eqb_refl in Hget1. rewrite Hne, String.eqb_refl in Hget2.
  specialize (Hget1 eq_refl). specialize (Hget2 eq_refl).
  destruct (FreeFigureClassifier._enhance_classification_with_analysis
              image [(k1, v1); (k2, v2)])
    as [| [a x] [| [b y] [| kv rest]]];
    cbn [dict_keys map fst] in Hkeys; try discriminate Hkeys.
  injection Hkeys as Ha Hb. subst a b.
  cbn [dict_get] in Hget1, Hget2.
  rewrite String.eqb_refl in Hget1. rewrite Hne, String.eqb_refl in Hget2.
  injection Hget1 as Hx. injection Hget2 as Hy. subst x y. reflexivity.
Qed.

(** The bonuses of the four categories a local caption can name. *)
Lemma local_bonuses :
  forall image,
    (VisualBonus.bonus image "photograph" = 0
     \/ VisualBonus.bonus image "photograph" = 6)%Z
    /\ (VisualBonus.bonus image "infographic" = 0
        \/ VisualBonus.bonus image "infographic" = 6)%Z
    /\ (VisualBonus.bonus image "flowchart" = 0
        \/ VisualBonus.bonus image "flowchart" = 8)%Z
    /\ VisualBonus.bonus image "chart_other" = 0%Z
    /\ VisualBonus.bonus image "diagram_other" = 0%Z.
Proof.
  intros image. unfold VisualBonus.bonus.
  repeat match goal with
         | |- context [str_mem ?k ?l] =>
             let v := eval vm_compute in (str_mem k l) in
             change (str_mem k l) with v
         end.
  rewrite ?andb_false_r, ?andb_true_r.
  repeat match goal with
         | |- context [if ?b then _ else _] => destruct b
         end;
    repeat split; auto.
Qed.

(** X12. When no caption comes from the service (the image cannot be
    saved, the request raises, or the status is not 200), the keywords
    always find a match in the caption synthesized locally, so that the
    visual-only fallback is never reached: the category is photograph,
    flowchart, chart_other or infographic, with confidence 0.75, 0.8, 0.85
    or 0.95. *)
Theorem unavailable_service_never_reaches_visual_fallback :
  forall image s,
    LocalCaption.service_unavailable ext image ->
    FreeFigureClassifier.keyword_scores
      (lower (FreeFigureClassifier._analyze_image_locally ext image)) <> []
    /\ exists c x,
        dict_get (fst (FreeFigureClassifier.classify_figure ext image s))
          "classification" = Some (VStr c)
        /\ In c ["photograph"; "flowchart"; "chart_other"; "infographic"]
        /\ dict_get (fst (FreeFigureClassifier.classify_figure ext image s))
             "confidence" = Some (VFloat x)
        /\ In x [0.75; 0.8; 0.85; 0.95]%float.
Proof.
  intros image s Hdown.
  pose proof (description_when_unavailable image Hdown) as Hd.
  pose proof (local_captions image) as Hcap.
  pose proof local_caption_scores as Hscores.
  rewrite Forall_forall in Hscores. specialize (Hscores _ Hcap).
  destruct (local_bonuses image) as [Hp [Hi [Hf [Hc Hdo]]]].
  unfold LocalCaption.score_tables in Hscores. cbn [In] in Hscores.
  destruct Hscores as [Hs | [Hs | [Hs | [Hs | []]]]];
    (split; [rewrite <- Hs; discriminate |]).
  - pose proof (enhance_one_category image "infographic" 6) as Henh.
    rewrite Hs in Henh.
    pose proof (classify_on_keyword_path image s _ _ _ Hd Henh) as [Hc1 Hc2].
    cbn [FreeFigureClassifier.max_item fst snd] in Hc1, Hc2.
    do 2 eexists. split; [exact Hc1 | split; [member |]].
    split; [exact Hc2 |].
    destruct Hi as [Hb | Hb]; rewrite Hb; vm_compute; tauto.
  - pose proof (enhance_two_categories image "flowchart" 7 "diagram_other" 7
                  eq_refl) as Henh.
    rewrite Hs in Henh.
    pose proof (classify_on_keyword_path image s _ _ _ Hd Henh) as [Hc1 Hc2].
    cbn [FreeFigureClassifier.max_item fst snd] in Hc1, Hc2.
    rewrite Hdo in Hc1, Hc2.
    destruct Hf as [Hb | Hb]; rewrite Hb in Hc1, Hc2;
      cbn [Z.add Z.ltb Z.compare Pos.add Pos.succ Pos.compare Pos.compare_cont
           fst snd] in Hc1, Hc2;
      do 2 eexists; (split; [exact Hc1 | split; [member |]]);
      (split; [exact Hc2 |]); vm_compute; tauto.
  - pose proof (enhance_one_category image "chart_other" 5) as Henh.
    rewrite Hs in Henh.
    pose proof (classify_on_keyword_path image s _ _ _ Hd Henh) as [Hc1 Hc2].
    cbn [FreeFigureClassifier.max_item fst snd] in Hc1, Hc2.
    do 2 eexists. split; [exact Hc1 | split; [member |]].
    split; [exact Hc2 |].
    rewrite Hc. vm_compute; tauto.
  - pose proof (enhance_one_category image "photograph" 5) as Henh.
    rewrite Hs in Henh.
    pose proof (classify_on_keyword_path image s _ _ _ Hd Henh) as [Hc1 Hc2].
    cbn [FreeFigureClassifier.max_item fst snd] in Hc1, Hc2.
    do 2 eexists. split; [exact Hc1 | split; [member |]].
    split; [exact Hc2 |].
    destruct Hp as [Hb | Hb]; rewrite Hb; vm_compute; tauto.
Qed.

(** The caption of an array without channel axis. *)
Lemma grey_caption_scores :
  forall image,
    ndim3 (np_array image) = false ->
    shape0 (np_array image) <> 0%Z ->
    FreeFigureClassifier.keyword_scores
      (lower (FreeFigureClassifier._analyze_image_locally ext image))
    = [("photograph", 5%Z)].
Proof.
  intros image Hnd Hh. unfold FreeFigureClassifier._analyze_image_locally.
  unfold int_truediv. rewrite (proj2 (Z.eqb_neq _ _) Hh), Hnd.
  cbn [bind try_except ret].
  change (gt 0 0.1) with false. change (lt 0 0.01) with true.
  change (gt 0 0.2) with false. cbv iota.
  repeat case_band; vm_compute; reflexivity.
Qed.

Lemma grey_photograph_bonus :
  forall image,
    ndim3 (np_array image) = false ->
    VisualBonus.bonus image "photograph" = 0%Z.
Proof.
  intros image Hnd. unfold VisualBonus.bonus. rewrite Hnd.
  repeat match goal with
         | |- context [str_mem ?k ?l] =>
             let v := eval vm_compute in (str_mem k l) in
             change (str_mem k l) with v
         end.
  rewrite ?andb_false_r, ?andb_false_l.
  destruct (shape0 (np_array image) =? 0)%Z; reflexivity.
Qed.

(** X13. A greyscale image (an array without channel axis, with at least
    one row) for which no caption comes from the service is always
    classified as photograph with confidence 0.75, whatever it shows: its
    local caption always holds "simple image", and no visual bonus applies
    to it. *)
Theorem greyscale_without_service_is_a_photograph :
  forall image s,
    ndim3 (np_array image) = false ->
    shape0 (np_array image) <> 0%Z ->
    LocalCaption.service_unavailable ext image ->
    str_in "simple image"
      (FreeFigureClassifier._analyze_image_locally ext image) = true
    /\ dict_get (fst (FreeFigureClassifier.classify_figure ext image s))
         "classification" = Some (VStr "photograph")
    /\ dict_get (fst (FreeFigureClassifier.classify_figure ext image s))
         "type" = Some (VStr "📷 Photograph")
    /\ dict_get (fst (FreeFigureClassifier.classify_figure ext image s))
         "confidence" = Some (VFloat 0.75).
Proof.
  intros image s Hnd Hh Hdown.
  split.
  { unfold FreeFigureClassifier._analyze_image_locally.
    unfold int_truediv. rewrite (proj2 (Z.eqb_neq _ _) Hh), Hnd.
    cbn [bind try_except ret].
    change (gt 0 0.1) with false. change (lt 0 0.01) with true.
    change (gt 0 0.2) with false. cbv iota.
    repeat case_band; vm_compute; reflexivity. }
  pose proof (description_when_unavailable image Hdown) as Hd.
  pose proof (enhance_one_category image "photograph" 5) as Henh.
  rewrite <- (grey_caption_scores image Hnd Hh) in Henh.
  rewrite (grey_photograph_bonus image Hnd) in Henh.
  pose proof (classify_on_keyword_path image s _ _ _ Hd Henh) as [Hc1 Hc2].
  split; [exact Hc1 | split; [| exact Hc2]].
  unfold FreeFigureClassifier.classify_figure. rewrite Hd.
  unfold FreeFigureClassifier._classify_from_description. rewrite Henh.
  reflexivity.
Qed.

(** *** The fields of the caption-keyword result *)

(** X14. The visual elements listed in the details are never empty, never
    more than five and never repeated, and they are exactly those
    collected: three for a category naming a chart or a graph, else two
    for one naming a diagram, else two for photograph; then "text
    content", "varied colors" and "linear elements" for a caption naming
    text, color and line; "visual content" when nothing was collected.
    The slice [[:5]] cuts in one case only: when six were collected, the
    last one, "linear elements", is dropped. *)
Theorem visual_elements_are_one_to_five :
  forall description classification,
    let collected :=
      FreeFigureClassifier._extract_visual_elements description classification
    in
    let chart_or_graph :=
      str_in "chart" classification || str_in "graph" classification in
    let text := str_in "text" (lower description) in
    let color := str_in "color" (lower description) in
    let line := str_in "line" (lower description) in
    (1 <= List.length collected <= 5)%nat
    /\ NoDup collected
    /\ (chart_or_graph = true -> text = true -> color = true -> line = true ->
        collected
        = ["data visualization"; "axes"; "labels"; "text content";
           "varied colors"])
    /\ (forall e,
           In e ["data visualization"; "axes"; "labels"] ->
           (In e collected <-> chart_or_graph = true))
    /\ (forall e,
           In e ["shapes"; "connectors"] ->
           (In e collected
            <-> chart_or_graph = false
                /\ str_in "diagram" classification = true))
    /\ (forall e,
           In e ["real objects"; "natural lighting"] ->
           (In e collected
            <-> chart_or_graph = false
                /\ str_in "diagram" classification = false
                /\ String.eqb classification "photograph" = true))
    /\ (In "text content" collected <-> text = true)
    /\ (In "varied colors" collected <-> color = true)
    /\ (In "linear elements" collected
        <-> line = true /\ chart_or_graph && text && color = false)
    /\ (In "visual content" collected
        <-> chart_or_graph = false
            /\ str_in "diagram" classification = false
            /\ String.eqb classification "photograph" = false
            /\ text = false /\ color = false /\ line = false)
    /\ (forall e,
           In e collected ->
           In e ["data visualization"; "axes"; "labels"; "shapes";
                 "connectors"; "real objects"; "natural lighting";
                 "text content"; "varied colors"; "linear elements";
                 "visual content"]).
Proof.
  intros description classification. cbv zeta.
  unfold FreeFigureClassifier._extract_visual_elements.
  destruct description as [| a description].
  - cbn [String.eqb negb].
    change (str_in "text" (lower "")) with false.
    change (str_in "color" (lower "")) with false.
    change (str_in "line" (lower "")) with false.
    destruct (str_in "chart" classification || str_in "graph" classification),
      (str_in "diagram" classification),
      (String.eqb classification "photograph");
      cbn [app firstn List.length andb];
      (split; [lia |]);
      (split;
       [ repeat (constructor; [cbn [In]; intuition discriminate |]);
         constructor |]);
      (split; [intros _ Htext; discriminate Htext |]);
      repeat split; intros; cbn [In] in *;
      intuition (subst; try discriminate; auto 12).
  - cbn [String.eqb negb].
    destruct (str_in "chart" classification || str_in "graph" classification),
      (str_in "diagram" classification),
      (String.eqb classification "photograph"),
      (str_in "text" (lower (String a description))),
      (str_in "color" (lower (String a description))),
      (str_in "line" (lower (String a description)));
      cbn [app firstn List.length andb];
      (split; [lia |]);
      (split;
       [ repeat (constructor; [cbn [In]; intuition discriminate |]);
         constructor |]);
      (split;
       [ intros Hchart Htext Hcolor Hline; first [reflexivity | discriminate]
       |]);
      repeat split; intros; cbn [In] in *;
      intuition (subst; try discriminate; auto 12).
Qed.

Lemma confidence_steps :
  forall n,
    (1 <= n <= 100)%Z ->
    In (CaptionSpec.confidence n)
       [0.55; 0.6; 0.65; 0.7; 0.75; 0.8; 0.85; 0.9; 0.95]%float
    /\ PrimFloat.eqb (CaptionSpec.confidence n) 0.95 = (9 <=? n)%Z.
Proof.
  intros n Hn.
  assert (Hall :
    Forall (fun k =>
              In (CaptionSpec.confidence (Z.of_nat k))
                 [0.55; 0.6; 0.65; 0.7; 0.75; 0.8; 0.85; 0.9; 0.95]%float
              /\ PrimFloat.eqb (CaptionSpec.confidence (Z.of_nat k)) 0.95
                 = (9 <=? Z.of_nat k)%Z)
           (seq 1 100)).
  { repeat (constructor;
            [ split; [vm_compute; tauto | vm_compute; reflexivity] | ]).
    constructor. }
  rewrite Forall_forall in Hall.
  specialize (Hall (Z.to_nat n)).
  rewrite Z2Nat.id in Hall by lia.
  apply Hall. apply in_seq. lia.
Qed.

(** X15. On the keyword path the confidence takes one of nine values, the
    multiples of 0.05 from 0.55 to 0.95, and it is saturated as soon as
    the winning score reaches 9: nine matched keyword characters, or fewer
    with a visual bonus, give the same 0.95 as any longer match. *)
Theorem keyword_confidence_saturates_at_nine :
  forall image s description first rest,
    FreeFigureClassifier._get_image_description ext image = JStr description ->
    FreeFigureClassifier._enhance_classification_with_analysis image
      (FreeFigureClassifier.keyword_scores (lower description))
    = first :: rest ->
    exists x,
      dict_get (fst (FreeFigureClassifier.classify_figure ext image s))
        "confidence" = Some (VFloat x)
      /\ In x [0.55; 0.6; 0.65; 0.7; 0.75; 0.8; 0.85; 0.9; 0.95]%float
      /\ PrimFloat.eqb x 0.95
         = (9 <=? snd (FreeFigureClassifier.max_item first rest))%Z.
Proof.
  intros image s description first rest Hd Henh.
  destruct (classify_on_keyword_path image s _ _ _ Hd Henh) as [_ Hc].
  exists (CaptionSpec.confidence
            (snd (FreeFigureClassifier.max_item first rest))).
  split; [exact Hc |].
  apply confidence_steps.
  destruct (max_item_spec rest first) as [Hin _].
  pose proof (enhance_range image
                (FreeFigureClassifier.keyword_scores (lower description))
                (keyword_scores_range (lower description))) as Hrange.
  rewrite Henh in Hrange. rewrite Forall_forall in Hrange.
  exact (Hrange _ Hin).
Qed.

End Further.

(** * Properties of the generative-vision classifier *)

Section Gemini.
Import Py Np Ext.
Variable ext : Extern.
Variable generate_content :
  string -> string -> list Z -> AIFigureClassifier.gemini_outcome.
Variables api_key1 api_key2 : string.
Variable sha256_hexdigest : list Z -> string.

Local Abbreviation call_gemini :=
  (AIFigureClassifier.call_gemini_with_fallback
     generate_content api_key1 api_key2).
Local Abbreviation classify_with_gemini :=
  (AIFigureClassifier.classify_figure
     ext generate_content api_key1 api_key2 sha256_hexdigest).

(** The result that [classify_figure] builds from a response. *)
Lemma classify_of_response :
  forall image image_bytes,
    save_png ext image = inr image_bytes ->
    classify_with_gemini image
    = (let response := call_gemini AIFigureClassifier.prompt image_bytes in
       let '(tag, confidence, desc, reason) :=
         if str_in "Gemini quota exceeded" response
            || String.prefix "⚠️ Gemini" response
         then ("📐 Other Diagram", 30.0%float,
               "Grayscale content, likely diagram or text", response)
         else AIFigureClassifier._parse_response response in
       inr [ ("type", VStr tag);
             ("confidence", VFloat confidence);
             ("description", VStr desc);
             ("reasoning", VStr reason) ]).
Proof.
  intros image image_bytes Hsave.
  unfold AIFigureClassifier.classify_figure,
    AIFigureClassifier._image_to_bytes.
  rewrite Hsave. reflexivity.
Qed.

Lemma failure_message_is_degraded :
  forall image image_bytes,
    save_png ext image = inr image_bytes ->
    String.prefix "⚠️ Gemini"
      (call_gemini AIFigureClassifier.prompt image_bytes) = true ->
    classify_with_gemini image
    = inr [ ("type", VStr "📐 Other Diagram");
            ("confidence", VFloat 30);
            ("description", VStr "Grayscale content, likely diagram or text");
            ("reasoning",
             VStr (call_gemini AIFigureClassifier.prompt image_bytes)) ].
Proof.
  intros image image_bytes Hsave Hprefix.
  rewrite (classify_of_response image image_bytes Hsave).
  cbv zeta. rewrite Hprefix, orb_true_r. reflexivity.
Qed.

(** X17. When no key obtains an answer (every key is exhausted, or a call
    fails otherwise before one answers), the result is the degraded result
    of the rule-based classifier, field by field, but for the reasoning,
    which is the message of [call_gemini_with_fallback] and starts with
    "⚠️ Gemini". *)
Theorem no_answer_gives_the_degraded_result :
  forall image image_bytes,
    save_png ext image = inr image_bytes ->
    (forall key text,
        In key [api_key1; api_key2] ->
        generate_content key AIFigureClassifier.prompt image_bytes
        <> AIFigureClassifier.Answer text) ->
    exists message,
      call_gemini AIFigureClassifier.prompt image_bytes = message
      /\ String.prefix "⚠️ Gemini" message = true
      /\ classify_with_gemini image
         = inr [ ("type", VStr "📐 Other Diagram");
                 ("confidence", VFloat 30);
                 ("description",
                  VStr "Grayscale content, likely diagram or text");
                 ("reasoning", VStr message) ]
      /\ forall e,
          classify_with_gemini image
          = inr (dict_set (FigureClassifier.error_result e)
                          "reasoning" (VStr message)).
Proof.
  intros image image_bytes Hsave Hno.
  assert (Hprefix :
    String.prefix "⚠️ Gemini"
      (call_gemini AIFigureClassifier.prompt image_bytes) = true).
  { unfold AIFigureClassifier.call_gemini_with_fallback,
      AIFigureClassifier.API_KEYS.
    cbn [AIFigureClassifier.try_keys].
    pose proof (Hno api_key1) as H1. pose proof (Hno api_key2) as H2.
    destruct (generate_content api_key1 AIFigureClassifier.prompt image_bytes)
      as [text | | e].
    - exfalso. apply (H1 text); [left; reflexivity | reflexivity].
    - destruct (generate_content api_key2 AIFigureClassifier.prompt
                  image_bytes) as [text | | e].
      + exfalso.
        apply (H2 text); [right; left; reflexivity | reflexivity].
      + reflexivity.
      + reflexivity.
    - reflexivity. }
  pose proof (failure_message_is_degraded image image_bytes Hsave Hprefix)
    as Hresult.
  exists (call_gemini AIFigureClassifier.prompt image_bytes).
  split; [reflexivity | split; [exact Hprefix | split; [exact Hresult |]]].
  intros e. rewrite Hresult. reflexivity.
Qed.

(** X18. The call raises exactly when the image cannot be written as PNG.
    Otherwise the result has the four fields, the tag and the confidence
    form one of nine pairs, and the confidence is 30 exactly when the
    response is taken for a failure message (it names "Gemini quota
    exceeded" or starts with "⚠️ Gemini"): no parsed answer carries 30. *)
Theorem gemini_result_pairs :
  forall image,
    match save_png ext image with
    | inl e => classify_with_gemini image = inl e
    | inr image_bytes =>
        let response := call_gemini AIFigureClassifier.prompt image_bytes in
        exists tag confidence desc reason,
          classify_with_gemini image
          = inr [ ("type", VStr tag);
                  ("confidence", VFloat confidence);
                  ("description", VStr desc);
                  ("reasoning", VStr reason) ]
          /\ In (tag, confidence)
                [ ("📐 Other Diagram", 30); ("📊 Bar Chart", 90);
                  ("📈 Line Graph", 90); ("🟢 Pie Chart", 90);
                  ("⏰ Timeline", 60); ("📷 Photograph", 40);
                  ("📋 Table", 70); ("📊 Other Chart", 50);
                  ("📐 Other Diagram", 40) ]%float
          /\ PrimFloat.eqb confidence 30
             = (str_in "Gemini quota exceeded" response
                || String.prefix "⚠️ Gemini" response)
    end.
Proof.
  intros image.
  destruct (save_png ext image) as [e | image_bytes] eqn:Hsave.
  - unfold AIFigureClassifier.classify_figure,
      AIFigureClassifier._image_to_bytes.
    rewrite Hsave. reflexivity.
  - cbv zeta. rewrite (classify_of_response image image_bytes Hsave).
    cbv zeta.
    set (response := call_gemini AIFigureClassifier.prompt image_bytes).
    destruct (str_in "Gemini quota exceeded" response
              || String.prefix "⚠️ Gemini" response).
    + do 4 eexists. split; [reflexivity |].
      split; [left; reflexivity | reflexivity].
    + unfold AIFigureClassifier._parse_response.
      set (lower_resp := lower (AIFigureClassifier.strip response)).
      destruct (str_in "bar chart" lower_resp);
        [| destruct (str_in "line graph" lower_resp);
           [| destruct (str_in "pie chart" lower_resp);
              [| destruct (str_in "timeline" lower_resp);
                 [| destruct (str_in "photograph" lower_resp
                              || str_in "photo" lower_resp);
                    [| destruct (str_in "table" lower_resp);
                       [| destruct (str_in "chart" lower_resp)]]]]]];
        (do 4 eexists; split; [reflexivity |];
         split; [cbn [In]; repeat (first [left; reflexivity | right])
                | reflexivity]).
Qed.

(** *** The parsed answer *)

Lemma prefix_nil : forall s, String.prefix "" s = true.
Proof. intros s. destruct s; reflexivity. Qed.

Lemma prefix_cons :
  forall c w s, String.prefix (String c w) (String c s) = String.prefix w s.
Proof.
  intros c w s. cbn [String.prefix].
  destruct (ascii_dec c c) as [_ | Hne]; [reflexivity | contradiction].
Qed.

Lemma prefix_cons_other :
  forall a c w s,
    Ascii.eqb c a = false -> String.prefix (String a w) (String c s) = false.
Proof.
  intros a c w s Hne. cbn [String.prefix].
  destruct (ascii_dec a c) as [Heq | _]; [| reflexivity].
  subst c. rewrite Ascii.eqb_refl in Hne. discriminate Hne.
Qed.

Lemma split_first_prefix :
  forall sep s,
    String.prefix (AIFigureClassifier.split_first sep s) s = true.
Proof.
  intros sep s. induction s as [| c r IH];
    cbn [AIFigureClassifier.split_first]; [reflexivity |].
  destruct (Ascii.eqb c sep); [reflexivity |].
  rewrite prefix_cons. exact IH.
Qed.

Lemma split_first_has_no_separator :
  forall sep s,
    str_in (String sep "") (AIFigureClassifier.split_first sep s) = false.
Proof.
  intros sep s. induction s as [| c r IH];
    cbn [AIFigureClassifier.split_first]; [reflexivity |].
  destruct (Ascii.eqb c sep) eqn:Hc; [reflexivity |].
  cbn [str_in]. rewrite (prefix_cons_other sep c "" _ Hc). exact IH.
Qed.

Lemma split_first_without_separator :
  forall sep s,
    str_in (String sep "") s = false ->
    AIFigureClassifier.split_first sep s = s.
Proof.
  intros sep s. induction s as [| c r IH];
    cbn [AIFigureClassifier.split_first str_in]; [reflexivity |].
  destruct (Ascii.eqb_spec c sep) as [Hc | Hc].
  - subst c. rewrite prefix_cons, prefix_nil. discriminate.
  - rewrite (prefix_cons_other sep c "" r)
      by (apply Ascii.eqb_neq; exact Hc).
    intros Hr. rewrite (IH Hr). reflexivity.
Qed.

Lemma rstrip_idempotent :
  forall s,
    AIFigureClassifier.rstrip (AIFigureClassifier.rstrip s)
    = AIFigureClassifier.rstrip s.
Proof.
  induction s as [| c r IH]; [reflexivity |].
  cbn [AIFigureClassifier.rstrip].
  destruct (AIFigureClassifier.rstrip r) as [| d r'] eqn:Hr.
  - destruct (AIFigureClassifier.is_space c) eqn:Hc; [reflexivity |].
    cbn [AIFigureClassifier.rstrip]. rewrite Hc. reflexivity.
  - change (AIFigureClassifier.rstrip (String c (String d r')))
      with (match AIFigureClassifier.rstrip (String d r') with
            | EmptyString =>
                if AIFigureClassifier.is_space c then EmptyString
                else String c EmptyString
            | String a b => String c (String a b)
            end).
    rewrite IH. reflexivity.
Qed.

Lemma lstrip_head :
  forall s,
    match AIFigureClassifier.lstrip s with
    | EmptyString => True
    | String c _ => AIFigureClassifier.is_space c = false
    end.
Proof.
  induction s as [| c r IH]; cbn [AIFigureClassifier.lstrip]; [exact I |].
  destruct (AIFigureClassifier.is_space c) eqn:Hc; [exact IH | exact Hc].
Qed.

Lemma rstrip_keeps_head :
  forall c r,
    AIFigureClassifier.is_space c = false ->
    exists r', AIFigureClassifier.rstrip (String c r) = String c r'.
Proof.
  intros c r Hc. cbn [AIFigureClassifier.rstrip].
  destruct (AIFigureClassifier.rstrip r) as [| d r'].
  - rewrite Hc. eexists; reflexivity.
  - eexists; reflexivity.
Qed.

Lemma strip_idempotent :
  forall s,
    AIFigureClassifier.strip (AIFigureClassifier.strip s)
    = AIFigureClassifier.strip s.
Proof.
  intros s. unfold AIFigureClassifier.strip.
  pose proof (lstrip_head s) as Hhead.
  destruct (AIFigureClassifier.lstrip s) as [| c r]; [reflexivity |].
  destruct (rstrip_keeps_head c r Hhead) as [r' Hr'].
  rewrite Hr'. cbn [AIFigureClassifier.lstrip]. rewrite Hhead.
  rewrite <- Hr'. apply rstrip_idempotent.
Qed.

(** X19. In the parsed answer to an ASCII response the reasoning is the
    response without its surrounding white space (stripping it again
    changes nothing), and the description is the reasoning up to its first
    full stop: a prefix of the reasoning that holds no full stop, and the
    whole reasoning when that holds none. *)
Theorem parsed_description_is_the_first_sentence :
  forall response,
    isascii response = true ->
    let desc := snd (fst (AIFigureClassifier._parse_response response)) in
    let reason := snd (AIFigureClassifier._parse_response response) in
    reason = AIFigureClassifier.strip response
    /\ AIFigureClassifier.strip reason = reason
    /\ String.prefix desc reason = true
    /\ str_in "." desc = false
    /\ (str_in "." reason = false -> desc = reason).
Proof.
  intros response _.
  assert (Hshape :
    snd (fst (AIFigureClassifier._parse_response response))
    = AIFigureClassifier.split_first "." (AIFigureClassifier.strip response)
    /\ snd (AIFigureClassifier._parse_response response)
       = AIFigureClassifier.strip response).
  { unfold AIFigureClassifier._parse_response.
    set (lower_resp := lower (AIFigureClassifier.strip response)).
    destruct (str_in "bar chart" lower_resp);
      [| destruct (str_in "line graph" lower_resp);
         [| destruct (str_in "pie chart" lower_resp);
            [| destruct (str_in "timeline" lower_resp);
               [| destruct (str_in "photograph" lower_resp
                            || str_in "photo" lower_resp);
                  [| destruct (str_in "table" lower_resp);
                     [| destruct (str_in "chart" lower_resp)]]]]]];
      split; reflexivity. }
  destruct Hshape as [Hdesc Hreason]. cbv zeta.
  rewrite Hdesc, Hreason.
  split; [reflexivity |].
  split; [apply strip_idempotent |].
  split; [apply split_first_prefix |].
  split; [apply split_first_has_no_separator |].
  apply split_first_without_separator.
Qed.

Lemma prefix_of_app :
  forall a b s,
    String.prefix (a ++ b) s = true -> String.prefix a s = true.
Proof.
  induction a as [| x a IH]; intros b s H; [apply prefix_nil |].
  destruct s as [| y s]; [discriminate H |].
  cbn [String.append String.prefix] in *.
  destruct (ascii_dec x y); [exact (IH b s H) | discriminate H].
Qed.

Lemma str_in_of_app :
  forall a b s, str_in (a ++ b) s = true -> str_in a s = true.
Proof.
  intros a b s. induction s as [| c r IH]; cbn [str_in].
  - destruct (String.prefix (a ++ b) "") eqn:Hp; [| discriminate].
    rewrite (prefix_of_app a b "" Hp). reflexivity.
  - destruct (String.prefix (a ++ b) (String c r)) eqn:Hp.
    + rewrite (prefix_of_app a b _ Hp). reflexivity.
    + intros H. rewrite (IH H).
      destruct (String.prefix a (String c r)); reflexivity.
Qed.

(** X20. The tag is "📷 Photograph" exactly when the stripped, lower-cased
    answer names none of "bar chart", "line graph", "pie chart" and
    "timeline" and holds "photo": the test for "photograph" adds nothing
    to the test for "photo", and "table" or "chart" in the same answer do
    not matter. *)
Theorem photograph_tag_needs_only_photo :
  forall response,
    let lower_resp := lower (AIFigureClassifier.strip response) in
    fst (fst (fst (AIFigureClassifier._parse_response response)))
    = "📷 Photograph"
    <-> (str_in "bar chart" lower_resp = false
         /\ str_in "line graph" lower_resp = false
         /\ str_in "pie chart" lower_resp = false
         /\ str_in "timeline" lower_resp = false
         /\ str_in "photo" lower_resp = true).
Proof.
  intros response. cbv zeta.
  unfold AIFigureClassifier._parse_response.
  set (lower_resp := lower (AIFigureClassifier.strip response)).
  pose proof (str_in_of_app "photo" "graph" lower_resp) as Hphoto.
  change ("photo" ++ "graph")%string with "photograph" in Hphoto.
  destruct (str_in "bar chart" lower_resp);
    [cbn [fst]; split; [discriminate | intros [H _]; discriminate H] |].
  destruct (str_in "line graph" lower_resp);
    [cbn [fst]; split; [discriminate | intros [_ [H _]]; discriminate H] |].
  destruct (str_in "pie chart" lower_resp);
    [cbn [fst]; split; [discriminate | intros [_ [_ [H _]]]; discriminate H] |].
  destruct (str_in "timeline" lower_resp);
    [cbn [fst]; split;
     [discriminate | intros [_ [_ [_ [H _]]]]; discriminate H] |].
  destruct (str_in "photo" lower_resp).
  - rewrite orb_true_r. cbn [fst]. split; [intros _ | reflexivity].
    repeat split.
  - destruct (str_in "photograph" lower_resp);
      [discriminate (Hphoto eq_refl) |].
    cbn [orb].
    destruct (str_in "table" lower_resp);
      [| destruct (str_in "chart" lower_resp)];
      cbn [fst]; (split; [discriminate | intros [_ [_ [_ [_ H]]]];
                                         discriminate H]).
Qed.

(** X21. The second key is consulted only when the first is exhausted: a
    service that agrees with this one on the first key, where that key is
    not exhausted, gives the same response whatever it does on the second
    key. *)
Theorem second_key_only_after_exhaustion :
  forall other_service prompt image_bytes,
    generate_content api_key1 prompt image_bytes
    = other_service api_key1 prompt image_bytes ->
    generate_content api_key1 prompt image_bytes
    <> AIFigureClassifier.ResourceExhausted ->
    call_gemini prompt image_bytes
    = AIFigureClassifier.call_gemini_with_fallback
        other_service api_key1 api_key2 prompt image_bytes.
Proof.
  intros other_service prompt image_bytes Hsame Hfirst.
  unfold AIFigureClassifier.call_gemini_with_fallback,
    AIFigureClassifier.API_KEYS.
  cbn [AIFigureClassifier.try_keys]. rewrite <- Hsame.
  destruct (generate_content api_key1 prompt image_bytes) as [text | | e];
    [reflexivity | contradiction | reflexivity].
Qed.

(** X22. Every tag of a parsed answer but "📊 Other Chart" is a label of
    the rule-based classifier, glyph included; "📊 Other Chart" is the
    label of no category there. *)
Theorem gemini_tags_and_rule_based_labels :
  (forall response,
      let tag :=
        fst (fst (fst (AIFigureClassifier._parse_response response))) in
      tag = "📊 Other Chart"
      \/ exists category, FigureClassifier._map_to_label category = tag)
  /\ (forall category,
         FigureClassifier._map_to_label category <> "📊 Other Chart").
Proof.
  split.
  - intros response. cbv zeta.
    unfold AIFigureClassifier._parse_response.
    set (lower_resp := lower (AIFigureClassifier.strip response)).
    destruct (str_in "bar chart" lower_resp);
      [right; exists "bar_chart"; reflexivity |].
    destruct (str_in "line graph" lower_resp);
      [right; exists "line_graph"; reflexivity |].
    destruct (str_in "pie chart" lower_resp);
      [right; exists "pie_chart"; reflexivity |].
    destruct (str_in "timeline" lower_resp);
      [right; exists "timeline"; reflexivity |].
    destruct (str_in "photograph" lower_resp || str_in "photo" lower_resp);
      [right; exists "photograph"; reflexivity |].
    destruct (str_in "table" lower_resp);
      [right; exists "table"; reflexivity |].
    destruct (str_in "chart" lower_resp);
      [left; reflexivity | right; exists "diagram"; reflexivity].
  - intros category.
    unfold FigureClassifier._map_to_label, dict_get_default. cbv zeta.
    cbn [dict_get].
    repeat match goal with
           | |- context [String.eqb category ?k] =>
               destruct (String.eqb category k); [discriminate |]
           end.
    discriminate.
Qed.

End Gemini.

(** * The further properties on concrete inputs *)

Section FurtherOnInputs.
Import Py Np Ext Inputs FurtherInputs.

(** A greyscale image and a colour image with no row. *)
Lemma empty_images_are_degraded :
  (exists e,
      FigureClassifier._extract_features (uniform_extern service_down)
        empty_grey = inl e
      /\ FigureClassifier.classify_figure (uniform_extern service_down)
           empty_grey fresh_rule_based
         = ([ ("type", VStr "📐 Other Diagram");
              ("confidence", VFloat 30);
              ("description",
               VStr "Grayscale content, likely diagram or text");
              ("reasoning", VStr ("Error during classification: " ++ e)) ],
            fresh_rule_based))
  /\ (exists e,
         FigureClassifier._extract_features (uniform_extern service_down)
           empty_rgb = inl e
         /\ FigureClassifier.classify_figure (uniform_extern service_down)
              empty_rgb fresh_rule_based
            = ([ ("type", VStr "📐 Other Diagram");
                 ("confidence", VFloat 30);
                 ("description",
                  VStr "Grayscale content, likely diagram or text");
                 ("reasoning", VStr ("Error during classification: " ++ e)) ],
               fresh_rule_based)).
Proof.
  split.
  - apply (pixel_free_image_is_degraded (uniform_extern service_down)
             empty_grey fresh_rule_based).
    intros gray Hgray. injection Hgray as Hgray. subst gray. reflexivity.
  - apply (pixel_free_image_is_degraded (uniform_extern service_down)
             empty_rgb fresh_rule_based).
    intros gray Hgray. injection Hgray as Hgray. subst gray. reflexivity.
Defined.

(** One pixel with an alpha channel: four values, not a multiple of three. *)
Lemma rgba_pixel_is_degraded :
  exists e,
    FigureClassifier._extract_features (uniform_extern service_down) rgba_pixel
    = inl e
    /\ FigureClassifier.classify_figure (uniform_extern service_down)
         rgba_pixel fresh_rule_based
       = ([ ("type", VStr "📐 Other Diagram");
            ("confidence", VFloat 30);
            ("description", VStr "Grayscale content, likely diagram or text");
            ("reasoning", VStr ("Error during classification: " ++ e)) ],
          fresh_rule_based).
Proof.
  apply (values_not_in_triples_is_degraded (uniform_extern service_down)
           rgba_pixel fresh_rule_based eq_refl).
  vm_compute. discriminate.
Defined.

(** The category histogram has no entry in the tables of the rule-based
    classifier. *)
Lemma histogram_gets_the_defaults :
  FigureClassifier._map_to_label "histogram" = "📐 Other Diagram"
  /\ FigureClassifier._get_brief_description "histogram"
     = "Grayscale content, likely diagram or text".
Proof.
  apply (unlisted_category_gets_the_defaults "histogram").
  cbn [In]. intuition discriminate.
Defined.

(** The halves of one grey pixel are empty: a correlation that differs on
    the samples that are not empty gives the same symmetry. *)
Lemma symmetry_of_a_white_pixel :
  FigureClassifier._calculate_symmetry (uniform_extern service_down)
    (np_array white_pixel_grey) 0
  = FigureClassifier._calculate_symmetry correlating_extern
      (np_array white_pixel_grey) 0.
Proof.
  apply (symmetry_compares_equal_halves (uniform_extern service_down)
           correlating_extern (np_array white_pixel_grey) 0).
  - repeat constructor.
  - intros x y Hx Hy. destruct x as [| a x]; [reflexivity |].
    vm_compute in Hx. discriminate Hx.
Defined.

(** The grey strip is neither a photograph nor a map. *)
Lemma grey_strip_is_no_photograph :
  dict_get (fst (FigureClassifier.classify_figure
                   (uniform_extern service_down) grey_strip fresh_rule_based))
    "type" <> Some (VStr "📷 Photograph")
  /\ dict_get (fst (FigureClassifier.classify_figure
                      (uniform_extern service_down) grey_strip
                      fresh_rule_based))
       "type" <> Some (VStr "🗺️ Map").
Proof.
  exact (greyscale_is_never_photograph_or_map (uniform_extern service_down)
           grey_strip fresh_rule_based eq_refl).
Defined.

(** With the service down, a white colour pixel is a photograph. *)
Lemma white_pixel_without_service :
  FreeFigureClassifier.keyword_scores
    (lower (FreeFigureClassifier._analyze_image_locally
              (uniform_extern service_down) white_pixel_rgb)) <> []
  /\ exists c x,
      dict_get (fst (FreeFigureClassifier.classify_figure
                       (uniform_extern service_down) white_pixel_rgb
                       fresh_free))
        "classification" = Some (VStr c)
      /\ In c ["photograph"; "flowchart"; "chart_other"; "infographic"]
      /\ dict_get (fst (FreeFigureClassifier.classify_figure
                          (uniform_extern service_down) white_pixel_rgb
                          fresh_free))
           "confidence" = Some (VFloat x)
      /\ In x [0.75; 0.8; 0.85; 0.95]%float.
Proof.
  exact (unavailable_service_never_reaches_visual_fallback
           (uniform_extern service_down) white_pixel_rgb fresh_free I).
Defined.

(** With the service down, a white grey pixel is a photograph at 0.75. *)
Lemma grey_pixel_without_service :
  str_in "simple image"
    (FreeFigureClassifier._analyze_image_locally
       (uniform_extern service_down) white_pixel_grey) = true
  /\ dict_get (fst (FreeFigureClassifier.classify_figure
                      (uniform_extern service_down) white_pixel_grey
                      fresh_free))
       "classification" = Some (VStr "photograph")
  /\ dict_get (fst (FreeFigureClassifier.classify_figure
                      (uniform_extern service_down) white_pixel_grey
                      fresh_free))
       "type" = Some (VStr "📷 Photograph")
  /\ dict_get (fst (FreeFigureClassifier.classify_figure
                      (uniform_extern service_down) white_pixel_grey
                      fresh_free))
       "confidence" = Some (VFloat 0.75).
Proof.
  apply (greyscale_without_service_is_a_photograph
           (uniform_extern service_down) white_pixel_grey fresh_free
           eq_refl).
  - vm_compute. discriminate.
  - exact I.
Defined.

(** The local caption of a white colour pixel scores 5 + 6 for photograph:
    the confidence is saturated. *)
Lemma white_pixel_confidence_is_saturated :
  exists x,
    dict_get (fst (FreeFigureClassifier.classify_figure
                     (uniform_extern service_down) white_pixel_rgb fresh_free))
      "confidence" = Some (VFloat x)
    /\ In x [0.55; 0.6; 0.65; 0.7; 0.75; 0.8; 0.85; 0.9; 0.95]%float
    /\ PrimFloat.eqb x 0.95
       = (9 <=? snd (FreeFigureClassifier.max_item
                       ("photograph", 11%Z) []))%Z.
Proof.
  exact (keyword_confidence_saturates_at_nine
           (uniform_extern service_down) white_pixel_rgb fresh_free
           "colorful image bright" ("photograph", 11%Z) []
           eq_refl eq_refl).
Defined.

(** Both keys exhausted. *)
Lemma exhausted_keys_give_the_degraded_result :
  exists message,
    AIFigureClassifier.call_gemini_with_fallback exhausted_service
      "key1" "key2" AIFigureClassifier.prompt [] = message
    /\ String.prefix "⚠️ Gemini" message = true
    /\ AIFigureClassifier.classify_figure (uniform_extern service_down)
         exhausted_service "key1" "key2" constant_digest white_pixel_rgb
       = inr [ ("type", VStr "📐 Other Diagram");
               ("confidence", VFloat 30);
               ("description",
                VStr "Grayscale content, likely diagram or text");
               ("reasoning", VStr message) ]
    /\ forall e,
        AIFigureClassifier.classify_figure (uniform_extern service_down)
          exhausted_service "key1" "key2" constant_digest white_pixel_rgb
        = inr (dict_set (FigureClassifier.error_result e)
                        "reasoning" (VStr message)).
Proof.
  apply (no_answer_gives_the_degraded_result (uniform_extern service_down)
           exhausted_service "key1" "key2" constant_digest white_pixel_rgb []
           eq_refl).
  intros key text _ H. discriminate H.
Defined.

(** The first key answers: the second is not looked at. *)
Lemma first_key_answers :
  AIFigureClassifier.call_gemini_with_fallback answering_service
    "key1" "key2" AIFigureClassifier.prompt []
  = AIFigureClassifier.call_gemini_with_fallback first_key_service
      "key1" "key2" AIFigureClassifier.prompt [].
Proof.
  apply (second_key_only_after_exhaustion answering_service "key1" "key2"
           first_key_service AIFigureClassifier.prompt [] eq_refl).
  discriminate.
Defined.

(** After the degraded result on the image with no row, the attribute is
    the 0.0 of a fresh instance. *)
Lemma empty_grey_leaves_the_attribute :
  snd (FigureClassifier.classify_figure (uniform_extern service_down)
         empty_grey fresh_rule_based)
  = fresh_rule_based.
Proof.
  exact (degraded_result_leaves_a_stale_attribute
           (uniform_extern service_down) empty_grey fresh_rule_based eq_refl).
Defined.

(** An answer between blanks: the reasoning is stripped, the description
    is its first sentence. *)
Lemma parsed_answer_between_blanks :
  snd (AIFigureClassifier._parse_response padded_answer)
  = AIFigureClassifier.strip padded_answer
  /\ AIFigureClassifier.strip
       (snd (AIFigureClassifier._parse_response padded_answer))
     = snd (AIFigureClassifier._parse_response padded_answer)
  /\ String.prefix
       (snd (fst (AIFigureClassifier._parse_response padded_answer)))
       (snd (AIFigureClassifier._parse_response padded_answer)) = true
  /\ str_in "."
       (snd (fst (AIFigureClassifier._parse_response padded_answer))) = false
  /\ (str_in "." (snd (AIFigureClassifier._parse_response padded_answer))
      = false ->
      snd (fst (AIFigureClassifier._parse_response padded_answer))
      = snd (AIFigureClassifier._parse_response padded_answer)).
Proof.
  exact (parsed_description_is_the_first_sentence padded_answer eq_refl).
Defined.

End FurtherOnInputs.
